(** * Questions.py: the Question model, its factory and its response validation

    A shallow embedding of [src/app/Models/Questions.py].

    - Python values that travel through plain mappings ([json_data], the
      factory's input, a response's payload) are the type [value].
    - A Python [dict] is an association list in insertion order; [dict.get],
      [dict.pop], [in], [keys()] and [values()] are written out on it.
    - Exceptions are the type [exn]: the Python class that is raised and, for
      the errors the module raises itself, the message as the source writes it
      (before any [.format]).
    - Constructor parameters have the types of their annotations
      ([prompt: str], [choices: List[str]], [answer: Dict[str, str]], ...).
    - The methods that work on [self] run in a state and error monad whose
      state is the object: a raise keeps the state that was reached.
    - The modules the file imports and that are not part of it
      ([app.Models.Response], [json], [uuid]) are the class [Imports]. *)

From Stdlib Require Import String List Bool Arith Lia.
Import ListNotations.
Open Scope string_scope.
Open Scope list_scope.
Set Warnings "-register-all".

(** ** Python values and mappings *)

Inductive value : Type :=
| VNone
| VStr (s : string)
| VList (l : list value)
| VDict (d : list (string * value)).

Definition dict : Type := list (string * value).

(** [v == s] for a value [v] and a [str] [s]. *)
Definition value_eq_str (v : value) (s : string) : bool :=
  match v with
  | VStr s' => String.eqb s' s
  | _ => false
  end.

(** [v is None]. *)
Definition is_None (v : value) : bool :=
  match v with
  | VNone => true
  | _ => false
  end.

(** [v in choices] for a list of [str]: some element is [==] to [v]. *)
Definition value_in (v : value) (choices : list string) : bool :=
  existsb (value_eq_str v) choices.

(** [s in choices] for a [str] and a list of [str]. *)
Definition str_in (s : string) (choices : list string) : bool :=
  existsb (String.eqb s) choices.

Module Dict.

Section Ops.
Context {V : Type}.

(** [key in d]. *)
Fixpoint contains (key : string) (d : list (string * V)) : bool :=
  match d with
  | [] => false
  | (k, _) :: d' => if String.eqb k key then true else contains key d'
  end.

(** [d[key]] where the key is present; [None] stands for [KeyError]. *)
Fixpoint lookup (key : string) (d : list (string * V)) : option V :=
  match d with
  | [] => None
  | (k, v) :: d' => if String.eqb k key then Some v else lookup key d'
  end.

(** What [d.pop(key)] leaves in [d]; [None] when the key is absent. *)
Fixpoint remove (key : string) (d : list (string * V))
  : option (list (string * V)) :=
  match d with
  | [] => None
  | (k, v) :: d' =>
      if String.eqb k key then Some d'
      else match remove key d' with
           | Some r => Some ((k, v) :: r)
           | None => None
           end
  end.

(** [list(d.keys())] and [list(d.values())]. *)
Definition keys (d : list (string * V)) : list string := map fst d.
Definition values (d : list (string * V)) : list V := map snd d.
End Ops.

(** [d.get(key)]: the value, or [None] when the key is absent. *)
Definition get (key : string) (d : dict) : value :=
  match lookup key d with
  | Some v => v
  | None => VNone
  end.

End Dict.

(** ** Exceptions *)

Inductive exn : Type :=
| TypeError (msg : string)
| KeyError (key : string)
| ValueError (msg : string)
| AttributeError (attr : string)
| AssertionError
| JSONDecodeError
| Untyped (param : string).
(** [Untyped p] is not a Python exception: the value bound to the parameter
    [p] is outside the parameter's annotated type, where the source goes on
    with a value this embedding has no type for. *)

Definition result (A : Type) : Type := (exn + A)%type.
Definition Ok {A : Type} (a : A) : result A := inr a.
Definition Err {A : Type} (e : exn) : result A := inl e.

Definition bind_result {A B : Type} (r : result A) (f : A -> result B)
  : result B :=
  match r with
  | inl e => inl e
  | inr a => f a
  end.

Declare Scope result_scope.
Delimit Scope result_scope with result.
Notation "x <- r ;; k" := (bind_result r (fun x => k))
  (at level 61, r at next level, right associativity) : result_scope.

(** [d.pop(key)] as a statement: the mapping that is left, or [KeyError]. *)
Definition dict_pop (key : string) (d : dict) : result dict :=
  match Dict.remove key d with
  | Some d' => Ok d'
  | None => Err (KeyError key)
  end.

(** The messages of the errors the module raises. *)
Definition msg_not_a_dictionary : string :=
  "The json representation must be a dictionary".
Definition msg_must_have_a_type : string :=
  "The value passed to create_a_question_from_json must be question and have a type".
Definition msg_not_supported : string :=
  "This question type is not supported: {}".
Definition msg_only_response_objects : string :=
  "Only Response objects are allowed".
Definition msg_invalid_response_type : string :=
  "Invalid response type: {} for a question of type: {}".
Definition msg_answer_in_choices : string :=
  "The answer must be reflected in the choices".
Definition msg_no_choice_key : string :=
  "The key choice is not in the representation of this response {}".
Definition msg_choice_not_reflected : string :=
  "Response choice present but not reflected in question choices".
Definition msg_left_choices : string :=
  "All left choices in the question must be reflected in the answer choices".
Definition msg_right_choices : string :=
  "All of the right choices in the answer must be reflected in the question".
Definition msg_no_answer_mapping : string :=
  "There is no answer mapping present in the response {}".
Definition msg_left_must_match : string :=
  "Left choices for the answer must be the same as the left choices for the question".
Definition msg_right_not_contained : string :=
  "Right_choices for this question object does not contain the key's specified in the response".
Definition msg_unexpected_keyword : string :=
  "__init__() got an unexpected keyword argument".
Definition msg_missing_argument : string :=
  "__init__() missing required positional argument".

(** ** [list(dict.fromkeys(choices))] *)

(** [d[key] = None] on the keys of an insertion-ordered mapping: a key that
    is already there keeps its place, a new one goes last. *)
Definition fromkeys_step (keys : list string) (key : string) : list string :=
  if str_in key keys then keys else keys ++ [key].

Definition fromkeys (choices : list string) : list string :=
  fold_left fromkeys_step choices [].

(** What the specification says of it: duplicates removed, the first
    occurrence of each entry kept in its place. *)
Fixpoint dedup_first_occurrence (l : list string) : list string :=
  match l with
  | [] => []
  | x :: t => x :: filter (fun y => negb (String.eqb x y)) (dedup_first_occurrence t)
  end.

(** What the specification asks of a matching response: an
    [answer_mapping] whose keys are the left choices, in order, and whose
    values are [None] or right choices. *)
Definition matches_choices (left_choices right_choices : list string)
    (answer_mapping : dict) : Prop :=
  Dict.keys answer_mapping = left_choices
  /\ Forall (fun v => v = VNone \/ exists s, v = VStr s /\ In s right_choices)
       (Dict.values answer_mapping).

(** ** The imported modules *)

(** [app.Models.Response], [json] and [uuid] are imported by the file and are
    not part of it.  [uuid4] is the string [str(uuid.uuid4())] evaluates to in
    the call at hand. *)
Class Imports : Type := {
  Response : Type;
  Response_get_type : Response -> string;
  Response_json_data : Response -> dict;
  Response_create_a_response : dict -> result Response;
  Response_eq : Response -> Response -> bool;
  json_loads : string -> result value;
  uuid4 : string
}.

(** Modelled from the spec: [app/Models/Response.py] is absent from the
    sources.  The specification describes a Response as a value carrying a
    [type] tag and variant-specific payload fields, that serializes to a plain
    mapping and has a symmetric factory dispatching on the [type]
    discriminator, mirroring the Question factory (read the tag, take it out of
    the mapping, keep the remaining fields). *)
Module SpecResponse.

Record t : Type := make { tag : string; payload : dict }.

Definition get_type (r : t) : string := tag r.

Definition json_data (r : t) : dict := ("type", VStr (tag r)) :: payload r.

Definition create_a_response (d : dict) : result t :=
  match Dict.get "type" d with
  | VStr ty =>
      match Dict.remove "type" d with
      | Some rest => Ok (make ty rest)
      | None => Err (KeyError "type")
      end
  | _ => Err (ValueError "The response must have a type")
  end.

Fixpoint value_eqb (a b : value) {struct a} : bool :=
  match a, b with
  | VNone, VNone => true
  | VStr s, VStr s' => String.eqb s s'
  | VList l, VList l' =>
      (fix all2 (l l' : list value) : bool :=
         match l, l' with
         | [], [] => true
         | x :: t, x' :: t' => value_eqb x x' && all2 t t'
         | _, _ => false
         end) l l'
  | VDict d, VDict d' =>
      (fix all2 (d d' : list (string * value)) : bool :=
         match d, d' with
         | [], [] => true
         | (k, x) :: t, (k', x') :: t' =>
             String.eqb k k' && value_eqb x x' && all2 t t'
         | _, _ => false
         end) d d'
  | _, _ => false
  end.

Definition eq (a b : t) : bool :=
  String.eqb (tag a) (tag b) && value_eqb (VDict (payload a)) (VDict (payload b)).

(** [json.loads] is not modelled: this instance decodes no text. *)
Definition imports (fresh : string) : Imports := {|
  Response := t;
  Response_get_type := get_type;
  Response_json_data := json_data;
  Response_create_a_response := create_a_response;
  Response_eq := eq;
  json_loads := fun _ => Err JSONDecodeError;
  uuid4 := fresh
|}.

End SpecResponse.

(** ** The Question objects *)

Section Model.

Context {imports : Imports}.

(** The attributes each subclass adds in its [__init__]. *)
Inductive Fields : Type :=
| MultipleChoiceFields (prompt : string) (choices : list string)
    (answer : string)
| MatchingFields (prompt : string) (left_choices right_choices : list string)
    (answer : list (string * string))
| ShortAnswerFields (prompt : string) (answer : string)
| FillInTheBlankFields (before_prompt after_prompt : string)
    (answer : string).

(** An object's [__dict__]: the attributes of [Question.__init__] and those
    of the subclass, whose constructor names the class. *)
Record Question : Type := mkQuestion {
  type : string;
  object_id : string;
  _responses : list Response;
  fields : Fields
}.

Definition get_type (self : Question) : string := type self.

Definition get_responses (self : Question) : list Response :=
  _responses self.

(** [Question.__init__(object_id, responses, type)], followed by the
    assignments of the subclass's attributes. *)
Definition Question_init (object_id : option string) (type : string)
    (attributes : Fields) : Question :=
  {| type := type;
     object_id := match object_id with
                  | None => uuid4
                  | Some id => id
                  end;
     _responses := [];
     fields := attributes |}.

(** *** Methods: state and errors *)

Definition Method (A : Type) : Type := Question -> result A * Question.

Definition ret {A : Type} (a : A) : Method A := fun self => (Ok a, self).

Definition raise {A : Type} (e : exn) : Method A :=
  fun self => (Err e, self).

Definition bind {A B : Type} (m : Method A) (f : A -> Method B)
  : Method B :=
  fun self =>
    match m self with
    | (inr a, self') => f a self'
    | (inl e, self') => (inl e, self')
    end.

Definition read : Method Question := fun self => (Ok self, self).

Definition lift {A : Type} (r : result A) : Method A :=
  fun self => (r, self).

(** The object after [self._responses.append(response)]. *)
Definition with_response (self : Question) (response : Response)
  : Question :=
  {| type := type self;
     object_id := object_id self;
     _responses := _responses self ++ [response];
     fields := fields self |}.

Definition append_response (response : Response) : Method unit :=
  fun self => (Ok tt, with_response self response).

(** *** [validate_response] of the four classes *)

Definition MultipleChoiceQuestion_validate_response
    (choices : list string) (response : Response) : result unit :=
  let response_json := Response_json_data response in
  if negb (Dict.contains "choice" response_json)
  then Err (ValueError msg_no_choice_key)
  else
    match Dict.lookup "choice" response_json with
    | None => Err (KeyError "choice")
    | Some choice =>
        if negb (value_in choice choices)
        then Err (ValueError msg_choice_not_reflected)
        else Ok tt
    end.

Definition MatchingQuestion_validate_response
    (left_choices right_choices : list string) (response : Response)
  : result unit :=
  let response_json := Response_json_data response in
  if negb (Dict.contains "answer_mapping" response_json)
  then Err (ValueError msg_no_answer_mapping)
  else
    match Dict.lookup "answer_mapping" response_json with
    | None => Err (KeyError "answer_mapping")
    | Some (VDict answer_mapping) =>
        let left := Dict.keys answer_mapping in
        let right := Dict.values answer_mapping in
        if negb (Nat.eqb (List.length right) (List.length left))
        then Err AssertionError
        else if negb (if list_eq_dec string_dec left left_choices
                      then true else false)
        then Err (ValueError msg_left_must_match)
        else if negb (forallb
                        (fun right_choice =>
                           value_in right_choice right_choices
                           || is_None right_choice) right)
        then Err (ValueError msg_right_not_contained)
        else Ok tt
    | Some _ => Err (AttributeError "keys")
    end.

Definition validate_response (self : Question) (response : Response)
  : result unit :=
  match fields self with
  | MultipleChoiceFields _ choices _ =>
      MultipleChoiceQuestion_validate_response choices response
  | MatchingFields _ left_choices right_choices _ =>
      MatchingQuestion_validate_response left_choices right_choices response
  | ShortAnswerFields _ _ => Ok tt
  | FillInTheBlankFields _ _ _ => Ok tt
  end.

(** *** [add_response] and [_initialize_responses] *)

(** [isinstance(response, Response)] holds by the type of [response]. *)
Definition add_response (response : Response) : Method unit :=
  bind read (fun self =>
  if negb (String.eqb (Response_get_type response) (get_type self))
  then raise (ValueError msg_invalid_response_type)
  else
    bind (lift (validate_response self response)) (fun _ =>
    append_response response)).

Fixpoint for_each {A : Type} (body : A -> Method unit) (l : list A)
  : Method unit :=
  match l with
  | [] => ret tt
  | a :: l' => bind (body a) (fun _ => for_each body l')
  end.

(** The list comprehension of [_initialize_responses]: every mapping goes
    through [Response.create_a_response] before any response is added. *)
Fixpoint response_objects (responses : list (dict + Response))
  : result (list Response) :=
  match responses with
  | [] => Ok []
  | response :: rest =>
      (response_object <-
         match response with
         | inl d => Response_create_a_response d
         | inr r => Ok r
         end ;;
       objects <- response_objects rest ;;
       Ok (response_object :: objects))%result
  end.

Definition _initialize_responses
    (responses : option (list (dict + Response))) : Method unit :=
  match responses with
  | None => ret tt
  | Some [] => ret tt
  | Some responses =>
      bind (lift (response_objects responses)) (fun objects =>
      for_each add_response objects)
  end.

(** The [responses] argument holds [Response] objects only, no mappings. *)
Definition only_objects (responses : option (list (dict + Response)))
  : Prop :=
  match responses with
  | None => True
  | Some l => Forall (fun x => exists r : Response, x = inr r) l
  end.

(** Runs the rest of an [__init__] on the object under construction. *)
Definition construct (self : Question) (body : Method unit)
  : result Question :=
  match body self with
  | (inr _, self') => Ok self'
  | (inl e, _) => Err e
  end.

(** *** The constructors *)

Definition MultipleChoiceQuestion (prompt : string) (choices : list string)
    (answer : string) (responses : option (list (dict + Response)))
    (object_id : option string) : result Question :=
  let self := Question_init object_id "multiple_choice"
                (MultipleChoiceFields prompt (fromkeys choices) answer) in
  construct self
    (bind (_initialize_responses responses) (fun _ =>
     if negb (str_in answer choices)
     then raise (ValueError msg_answer_in_choices)
     else ret tt)).

Definition MatchingQuestion (prompt : string)
    (left_choices right_choices : list string)
    (answer : list (string * string))
    (responses : option (list (dict + Response)))
    (object_id : option string) : result Question :=
  let self := Question_init object_id "matching"
                (MatchingFields prompt (fromkeys left_choices)
                   (fromkeys right_choices) answer) in
  construct self
    (if negb (forallb (fun left_choice =>
                         str_in left_choice (fromkeys left_choices))
                (Dict.values answer))
     then raise (ValueError msg_left_choices)
     else if negb (forallb (fun correct_answer =>
                              str_in correct_answer (fromkeys right_choices))
                     (Dict.values answer))
     then raise (ValueError msg_right_choices)
     else _initialize_responses responses).

Definition ShortAnswerQuestion (prompt answer : string)
    (responses : option (list (dict + Response)))
    (object_id : option string) : result Question :=
  let self := Question_init object_id "short_answer"
                (ShortAnswerFields prompt answer) in
  construct self (_initialize_responses responses).

Definition FillInTheBlankQuestion (before_prompt after_prompt answer : string)
    (responses : option (list (dict + Response)))
    (object_id : option string) : result Question :=
  let self := Question_init object_id "fill_in_the_blank"
                (FillInTheBlankFields before_prompt after_prompt answer) in
  construct self (_initialize_responses responses).

(** *** [json_data] *)

Definition str_list (l : list string) : value := VList (map VStr l).

Definition str_dict (d : list (string * string)) : value :=
  VDict (map (fun kv => (fst kv, VStr (snd kv))) d).

Definition responses_json (responses : list Response) : value :=
  VList (map (fun response => VDict (Response_json_data response)) responses).

Definition json_data (self : Question) : dict :=
  match fields self with
  | MultipleChoiceFields prompt choices answer =>
      [("kind", VStr "question"); ("object_id", VStr (object_id self));
       ("type", VStr "multiple_choice"); ("prompt", VStr prompt);
       ("choices", str_list choices);
       ("answer", VStr answer);
       ("responses", responses_json (_responses self))]
  | MatchingFields prompt left_choices right_choices answer =>
      [("kind", VStr "question"); ("object_id", VStr (object_id self));
       ("type", VStr "matching"); ("prompt", VStr prompt);
       ("left_choices", str_list left_choices);
       ("right_choices", str_list right_choices); ("answer", str_dict answer);
       ("responses", responses_json (_responses self))]
  | ShortAnswerFields prompt answer =>
      [("kind", VStr "question"); ("object_id", VStr (object_id self));
       ("type", VStr "short_answer"); ("prompt", VStr prompt);
       ("answer", VStr answer);
       ("responses", responses_json (_responses self))]
  | FillInTheBlankFields before_prompt after_prompt answer =>
      [("kind", VStr "question"); ("object_id", VStr (object_id self));
       ("type", VStr "fill_in_the_blank");
       ("before_prompt", VStr before_prompt);
       ("after_prompt", VStr after_prompt); ("answer", VStr answer);
       ("responses", responses_json (_responses self))]
  end.

(** *** [__eq__] *)

Fixpoint list_eq {A : Type} (eq : A -> A -> bool) (l l' : list A) : bool :=
  match l, l' with
  | [], [] => true
  | a :: t, a' :: t' => eq a a' && list_eq eq t t'
  | _, _ => false
  end.

Definition option_eq (a b : option string) : bool :=
  match a, b with
  | Some x, Some y => String.eqb x y
  | None, None => true
  | _, _ => false
  end.

(** [==] on two [Dict[str, str]]: the same keys with the same values, in
    any order. *)
Definition str_dict_eq (d d' : list (string * string)) : bool :=
  forallb (fun key => option_eq (Dict.lookup key d) (Dict.lookup key d'))
    (Dict.keys d ++ Dict.keys d').

(** [type(other) is type(self)] and the [==] of the two [__dict__]s. *)
Definition Question_eq (self other : Question) : bool :=
  String.eqb (type self) (type other)
  && String.eqb (object_id self) (object_id other)
  && list_eq Response_eq (_responses self) (_responses other)
  && match fields self, fields other with
     | MultipleChoiceFields p c a, MultipleChoiceFields p' c' a' =>
         String.eqb p p' && list_eq String.eqb c c' && String.eqb a a'
     | MatchingFields p l r a, MatchingFields p' l' r' a' =>
         String.eqb p p' && list_eq String.eqb l l'
         && list_eq String.eqb r r' && str_dict_eq a a'
     | ShortAnswerFields p a, ShortAnswerFields p' a' =>
         String.eqb p p' && String.eqb a a'
     | FillInTheBlankFields b f a, FillInTheBlankFields b' f' a' =>
         String.eqb b b' && String.eqb f f' && String.eqb a a'
     | _, _ => false
     end.

(** *** The factory *)

(** Binding the keywords of a mapping to the parameters of an [__init__]: a keyword that
    names no parameter and a required parameter without a value are
    [TypeError]s. *)
Definition check_keywords (parameters required : list string)
    (kwargs : dict) : result unit :=
  if negb (forallb (fun key => str_in key parameters) (Dict.keys kwargs))
  then Err (TypeError msg_unexpected_keyword)
  else if negb (forallb (fun p => Dict.contains p kwargs) required)
  then Err (TypeError msg_missing_argument)
  else Ok tt.

(** A value at the annotated type of the parameter it is bound to. *)
Definition as_str (param : string) (v : value) : result string :=
  match v with
  | VStr s => Ok s
  | _ => Err (Untyped param)
  end.

Fixpoint as_strs (param : string) (l : list value) : result (list string) :=
  match l with
  | [] => Ok []
  | v :: l' =>
      (s <- as_str param v ;; t <- as_strs param l' ;; Ok (s :: t))%result
  end.

Definition as_str_list (param : string) (v : value)
  : result (list string) :=
  match v with
  | VList l => as_strs param l
  | _ => Err (Untyped param)
  end.

Fixpoint as_str_items (param : string) (d : list (string * value))
  : result (list (string * string)) :=
  match d with
  | [] => Ok []
  | (k, v) :: d' =>
      (s <- as_str param v ;; t <- as_str_items param d' ;;
       Ok ((k, s) :: t))%result
  end.

Definition as_str_dict (param : string) (v : value)
  : result (list (string * string)) :=
  match v with
  | VDict d => as_str_items param d
  | _ => Err (Untyped param)
  end.

Fixpoint as_response_items (l : list value)
  : result (list (dict + Response)) :=
  match l with
  | [] => Ok []
  | VDict d :: l' =>
      (t <- as_response_items l' ;; Ok (inl d :: t))%result
  | _ :: _ => Err (Untyped "responses")
  end.

Definition as_responses (v : value)
  : result (option (list (dict + Response))) :=
  match v with
  | VNone => Ok None
  | VList l => (t <- as_response_items l ;; Ok (Some t))%result
  | _ => Err (Untyped "responses")
  end.

Definition as_object_id (v : value) : result (option string) :=
  match v with
  | VNone => Ok None
  | VStr s => Ok (Some s)
  | _ => Err (Untyped "object_id")
  end.

(** The call of [MultipleChoiceQuestion] on the keywords of the mapping, and
    its three siblings.  A parameter
    with the default [None] that has no keyword reads [None], which is what
    [Dict.get] gives. *)
Definition call_MultipleChoiceQuestion (kwargs : dict) : result Question :=
  (_ <- check_keywords
          ["prompt"; "choices"; "answer"; "responses"; "object_id"]
          ["prompt"; "choices"; "answer"] kwargs ;;
   prompt <- as_str "prompt" (Dict.get "prompt" kwargs) ;;
   choices <- as_str_list "choices" (Dict.get "choices" kwargs) ;;
   answer <- as_str "answer" (Dict.get "answer" kwargs) ;;
   responses <- as_responses (Dict.get "responses" kwargs) ;;
   object_id <- as_object_id (Dict.get "object_id" kwargs) ;;
   MultipleChoiceQuestion prompt choices answer responses object_id)%result.

Definition call_MatchingQuestion (kwargs : dict) : result Question :=
  (_ <- check_keywords
          ["prompt"; "left_choices"; "right_choices"; "answer"; "responses";
           "object_id"]
          ["prompt"; "left_choices"; "right_choices"; "answer"] kwargs ;;
   prompt <- as_str "prompt" (Dict.get "prompt" kwargs) ;;
   left_choices <- as_str_list "left_choices"
                     (Dict.get "left_choices" kwargs) ;;
   right_choices <- as_str_list "right_choices"
                      (Dict.get "right_choices" kwargs) ;;
   answer <- as_str_dict "answer" (Dict.get "answer" kwargs) ;;
   responses <- as_responses (Dict.get "responses" kwargs) ;;
   object_id <- as_object_id (Dict.get "object_id" kwargs) ;;
   MatchingQuestion prompt left_choices right_choices answer responses
     object_id)%result.

Definition call_ShortAnswerQuestion (kwargs : dict) : result Question :=
  (_ <- check_keywords ["prompt"; "answer"; "responses"; "object_id"]
          ["prompt"; "answer"] kwargs ;;
   prompt <- as_str "prompt" (Dict.get "prompt" kwargs) ;;
   answer <- as_str "answer" (Dict.get "answer" kwargs) ;;
   responses <- as_responses (Dict.get "responses" kwargs) ;;
   object_id <- as_object_id (Dict.get "object_id" kwargs) ;;
   ShortAnswerQuestion prompt answer responses object_id)%result.

Definition call_FillInTheBlankQuestion (kwargs : dict) : result Question :=
  (_ <- check_keywords
          ["before_prompt"; "after_prompt"; "answer"; "responses";
           "object_id"]
          ["before_prompt"; "after_prompt"; "answer"] kwargs ;;
   before_prompt <- as_str "before_prompt"
                      (Dict.get "before_prompt" kwargs) ;;
   after_prompt <- as_str "after_prompt" (Dict.get "after_prompt" kwargs) ;;
   answer <- as_str "answer" (Dict.get "answer" kwargs) ;;
   responses <- as_responses (Dict.get "responses" kwargs) ;;
   object_id <- as_object_id (Dict.get "object_id" kwargs) ;;
   FillInTheBlankQuestion before_prompt after_prompt answer responses
     object_id)%result.

(** What [create_a_question] can be handed. *)
Inductive representation : Type :=
| RepQuestion (q : Question)
| RepDict (d : dict)
| RepStr (s : string)
| RepOther.

(** The factory from the line that reads the discriminator on. *)
Definition create_from_dictionary (json_as_dictionary : dict)
  : result Question :=
  let question_type := Dict.get "type" json_as_dictionary in
  (json_as_dictionary <- dict_pop "type" json_as_dictionary ;;
   json_as_dictionary <- dict_pop "kind" json_as_dictionary ;;
   if is_None question_type
   then Err (ValueError msg_must_have_a_type)
   else if value_eq_str question_type "multiple_choice"
   then call_MultipleChoiceQuestion json_as_dictionary
   else if value_eq_str question_type "matching"
   then call_MatchingQuestion json_as_dictionary
   else if value_eq_str question_type "short_answer"
   then call_ShortAnswerQuestion json_as_dictionary
   else if value_eq_str question_type "fill_in_the_blank"
   then call_FillInTheBlankQuestion json_as_dictionary
   else Err (ValueError msg_not_supported))%result.

(** [copy.deepcopy] is the identity on the immutable values used here.  A
    text that [json.loads] decodes to something other than a mapping has no
    [get]. *)
Definition create_a_question (question_representation : representation)
  : result Question :=
  match question_representation with
  | RepQuestion q => Ok q
  | RepDict d => create_from_dictionary d
  | RepStr s =>
      (v <- json_loads s ;;
       match v with
       | VDict d => create_from_dictionary d
       | _ => Err (AttributeError "get")
       end)%result
  | RepOther => Err (TypeError msg_not_a_dictionary)
  end.

(** The subclass attributes of the object a constructor returned. *)
Definition fields_of_result (r : result Question) : option Fields :=
  match r with
  | inr q => Some (fields q)
  | inl _ => None
  end.

(** *** The objects a caller can hold *)

(** The [type] each class passes to [Question.__init__]. *)
Definition class_type (attributes : Fields) : string :=
  match attributes with
  | MultipleChoiceFields _ _ _ => "multiple_choice"
  | MatchingFields _ _ _ _ => "matching"
  | ShortAnswerFields _ _ => "short_answer"
  | FillInTheBlankFields _ _ _ => "fill_in_the_blank"
  end.

(** A question is validly constructed when one of the four constructors
    returned it, or [add_response] returned normally on such a question. *)
Inductive constructed : Question -> Prop :=
| constructed_multiple_choice prompt choices answer responses object_id q :
    MultipleChoiceQuestion prompt choices answer responses object_id = Ok q ->
    constructed q
| constructed_matching prompt left_choices right_choices answer responses
    object_id q :
    MatchingQuestion prompt left_choices right_choices answer responses
      object_id = Ok q ->
    constructed q
| constructed_short_answer prompt answer responses object_id q :
    ShortAnswerQuestion prompt answer responses object_id = Ok q ->
    constructed q
| constructed_fill_in_the_blank before_prompt after_prompt answer responses
    object_id q :
    FillInTheBlankQuestion before_prompt after_prompt answer responses
      object_id = Ok q ->
    constructed q
| constructed_add_response q response q' :
    constructed q ->
    add_response response q = (Ok tt, q') ->
    constructed q'.

(** What the round trip needs of [app.Models.Response]: its factory gives
    back the response a mapping was serialized from, and a response is
    [==] to itself. *)
(** [add_response] lets [response] in: its type is the question's and
    [validate_response] returns. *)
Definition accepted (self : Question) (response : Response) : Prop :=
  Response_get_type response = get_type self
  /\ validate_response self response = Ok tt.

(** A method leaves [type], [object_id] and the subclass attributes alone
    and only appends accepted responses. *)
Definition appends_accepted {A : Type} (m : Method A) : Prop :=
  forall self res self',
    m self = (res, self') ->
    type self' = type self
    /\ object_id self' = object_id self
    /\ fields self' = fields self
    /\ exists added,
         _responses self' = _responses self ++ added
         /\ Forall (accepted self) added.

(** What the constructors establish on the subclass attributes. *)
Definition fields_ok (attributes : Fields) : Prop :=
  match attributes with
  | MultipleChoiceFields _ choices answer =>
      fromkeys choices = choices /\ str_in answer choices = true
  | MatchingFields _ left_choices right_choices answer =>
      fromkeys left_choices = left_choices
      /\ fromkeys right_choices = right_choices
      /\ forallb (fun v => str_in v left_choices) (Dict.values answer) = true
      /\ forallb (fun v => str_in v right_choices) (Dict.values answer)
         = true
  | ShortAnswerFields _ _ => True
  | FillInTheBlankFields _ _ _ => True
  end.

Definition well_formed (q : Question) : Prop :=
  type q = class_type (fields q)
  /\ fields_ok (fields q)
  /\ Forall (accepted q) (_responses q).

Class ResponseLaws : Prop := {
  create_a_response_json_data :
    forall r, Response_create_a_response (Response_json_data r) = Ok r;
  Response_eq_refl : forall r, Response_eq r r = true
}.

End Model.

(** ** Concrete questions and responses *)

Module Example.

#[local] Instance imports : Imports :=
  SpecResponse.imports "1b4e28ba-2fa1-41d2-883f-0016d3cca427".

(** [MultipleChoiceQuestion(prompt="2+2?", choices=["3","4","5"],
    answer="4")], as it is constructed. *)
Definition two_plus_two : Question :=
  {| type := "multiple_choice";
     object_id := "1b4e28ba-2fa1-41d2-883f-0016d3cca427";
     _responses := [];
     fields := MultipleChoiceFields "2+2?" ["3"; "4"; "5"] "4" |}.

Definition choice_4 : Response :=
  SpecResponse.make "multiple_choice" [("choice", VStr "4")].

Definition choice_9 : Response :=
  SpecResponse.make "multiple_choice" [("choice", VStr "9")].

(** A matching question and three responses to it. *)
Definition capitals : Question :=
  {| type := "matching";
     object_id := "q-7";
     _responses := [];
     fields := MatchingFields "Match the capitals" ["France"; "Peru"]
                 ["Lima"; "Paris"; "France"] [("anything", "France")] |}.

Definition capitals_matched : Response :=
  SpecResponse.make "matching"
    [("answer_mapping", VDict [("France", VStr "Paris"); ("Peru", VNone)])].

Definition capitals_swapped : Response :=
  SpecResponse.make "matching"
    [("answer_mapping", VDict [("Peru", VStr "Lima"); ("France", VNone)])].

Definition capitals_as_text : Response :=
  SpecResponse.make "matching" [("answer_mapping", VStr "France=Paris")].

(** Mappings for the factory. *)
Definition without_type : dict :=
  [("kind", VStr "question"); ("prompt", VStr "2+2?");
   ("choices", VList [VStr "3"; VStr "4"; VStr "5"]); ("answer", VStr "4")].

Definition without_kind : dict :=
  [("type", VStr "multiple_choice"); ("prompt", VStr "2+2?");
   ("choices", VList [VStr "3"; VStr "4"; VStr "5"]); ("answer", VStr "4")].

Definition unknown_kind : dict :=
  [("type", VStr "unknown_kind"); ("kind", VStr "question")].

Definition unknown_kind_only : dict := [("type", VStr "unknown_kind")].

End Example.

(** More of them, for the further properties. *)
Module Sample.

#[local] Existing Instance Example.imports.

Definition essay : Question :=
  {| type := "short_answer";
     object_id := "q-9";
     _responses := [];
     fields := ShortAnswerFields "Why is the sky blue?" "Rayleigh scattering" |}.

Definition essay_reply : Response :=
  SpecResponse.make "short_answer" [("text", VStr "It reflects the sea")].

Definition null_type : dict := [("type", VNone); ("kind", VStr "question")].

Definition with_stray_key : dict :=
  [("kind", VStr "question"); ("type", VStr "short_answer");
   ("prompt", VStr "Why?"); ("answer", VStr "Because"); ("points", VStr "5")].

Definition without_answer : dict :=
  [("kind", VStr "question"); ("type", VStr "short_answer");
   ("prompt", VStr "Why?")].

End Sample.

(** * Properties *)

(** ** Strings, mappings and [fromkeys] *)

Lemma str_in_In (s : string) (l : list string) :
  str_in s l = true <-> In s l.
Proof.
  unfold str_in. rewrite existsb_exists. split.
  - intros (x & Hx & Heq). apply String.eqb_eq in Heq. now subst.
  - intros H. exists s. split; [assumption | apply String.eqb_refl].
Qed.

Lemma str_in_false (s : string) (l : list string) :
  str_in s l = false <-> ~ In s l.
Proof.
  rewrite <- str_in_In. destruct (str_in s l); split; congruence.
Qed.

Lemma value_in_VStr (s : string) (l : list string) :
  value_in (VStr s) l = str_in s l.
Proof. reflexivity. Qed.

Lemma value_in_spec (v : value) (l : list string) :
  value_in v l = true <-> exists s, v = VStr s /\ In s l.
Proof.
  split.
  - unfold value_in. rewrite existsb_exists. intros (x & Hx & Heq).
    destruct v; try discriminate. apply String.eqb_eq in Heq. subst.
    now exists x.
  - intros (s & -> & Hin). rewrite value_in_VStr. now apply str_in_In.
Qed.

Module DictFacts.

Section Facts.
Context {V : Type}.
Implicit Types (d : list (string * V)) (key : string).

Lemma contains_lookup key d :
  Dict.contains key d = true <-> exists v, Dict.lookup key d = Some v.
Proof.
  induction d as [| [k v] d IH]; simpl.
  - split; [discriminate | intros (v & H); discriminate].
  - destruct (String.eqb k key); [| exact IH].
    split; [now exists v | reflexivity].
Qed.

Lemma not_contains_lookup key d :
  Dict.contains key d = false <-> Dict.lookup key d = None.
Proof.
  induction d as [| [k v] d IH]; simpl.
  - split; reflexivity.
  - destruct (String.eqb k key); [| exact IH].
    split; discriminate.
Qed.

Lemma remove_None key d :
  Dict.remove key d = None <-> Dict.contains key d = false.
Proof.
  induction d as [| [k v] d IH]; simpl.
  - split; reflexivity.
  - destruct (String.eqb k key); [split; discriminate |].
    destruct (Dict.remove key d).
    + split; [discriminate |]. intros H. apply IH in H. discriminate.
    + split; [| reflexivity]. intros _. now apply IH.
Qed.

Lemma remove_Some key d :
  Dict.contains key d = true -> exists d', Dict.remove key d = Some d'.
Proof.
  intros H. destruct (Dict.remove key d) as [d' |] eqn:E.
  - now exists d'.
  - apply remove_None in E. congruence.
Qed.

(** Taking a key out leaves the other keys as they were. *)
Lemma contains_remove_other key key' d d' :
  key <> key' ->
  Dict.remove key d = Some d' ->
  Dict.contains key' d' = Dict.contains key' d.
Proof.
  intros Hne. revert d'.
  induction d as [| [k v] d IH]; simpl; intros d' H; [discriminate |].
  destruct (String.eqb k key) eqn:Ek.
  - injection H as <-. apply String.eqb_eq in Ek. subst k.
    apply String.eqb_neq in Hne. now rewrite Hne.
  - destruct (Dict.remove key d) as [r |]; [| discriminate].
    injection H as <-. simpl.
    destruct (String.eqb k key'); [reflexivity | now apply IH].
Qed.
End Facts.

End DictFacts.

(** [fromkeys] against the specification's wording. *)

Lemma filter_twice (P Q : string -> bool) (l : list string) :
  filter P (filter Q l) = filter (fun y => Q y && P y) l.
Proof.
  induction l as [| x l IH]; simpl; [reflexivity |].
  destruct (Q x); simpl; [destruct (P x) |]; now rewrite IH.
Qed.

Lemma str_in_app (s : string) (l l' : list string) :
  str_in s (l ++ l')%list = str_in s l || str_in s l'.
Proof. unfold str_in. apply existsb_app. Qed.

Lemma fromkeys_fold (l acc : list string) :
  fold_left fromkeys_step l acc =
  (acc ++ filter (fun y => negb (str_in y acc)) (dedup_first_occurrence l))%list.
Proof.
  revert acc. induction l as [| x l IH]; intros acc; simpl.
  - now rewrite app_nil_r.
  - rewrite IH. unfold fromkeys_step.
    destruct (str_in x acc) eqn:Hx; simpl.
    + f_equal. rewrite filter_twice. apply filter_ext. intros y.
      destruct (String.eqb x y) eqn:Exy; simpl; [| reflexivity].
      apply String.eqb_eq in Exy. subst y. now rewrite Hx.
    + rewrite <- app_assoc. simpl. do 2 f_equal.
      rewrite filter_twice. apply filter_ext. intros y.
      rewrite str_in_app. simpl. rewrite orb_false_r.
      rewrite (String.eqb_sym y x).
      destruct (String.eqb x y), (str_in y acc); reflexivity.
Qed.

Lemma dedup_first_occurrence_In (x : string) (l : list string) :
  In x (dedup_first_occurrence l) <-> In x l.
Proof.
  induction l as [| a l IH]; simpl; [reflexivity |].
  rewrite filter_In, IH. split.
  - intros [H | [H _]]; [now left | now right].
  - intros [H | H]; [now left |].
    destruct (string_dec a x) as [E | N]; [now left | right].
    split; [assumption |]. apply String.eqb_neq in N. now rewrite N.
Qed.

Lemma dedup_first_occurrence_NoDup (l : list string) :
  NoDup (dedup_first_occurrence l).
Proof.
  induction l as [| a l IH]; simpl; constructor.
  - rewrite filter_In. intros [_ H]. now rewrite String.eqb_refl in H.
  - now apply NoDup_filter.
Qed.

Lemma filter_all (P : string -> bool) (l : list string) :
  (forall y, In y l -> P y = true) -> filter P l = l.
Proof.
  induction l as [| y l IH]; simpl; intros H; [reflexivity |].
  rewrite (H y (or_introl eq_refl)). f_equal. apply IH.
  intros z Hz. apply H. now right.
Qed.

Lemma dedup_first_occurrence_fixed (l : list string) :
  NoDup l -> dedup_first_occurrence l = l.
Proof.
  induction 1 as [| a l Hnotin Hnodup IH]; simpl; [reflexivity |].
  rewrite IH. f_equal. apply filter_all.
  intros y Hy. apply negb_true_iff, String.eqb_neq.
  intros ->. contradiction.
Qed.

Lemma fromkeys_dedup (l : list string) :
  fromkeys l = dedup_first_occurrence l.
Proof.
  unfold fromkeys. rewrite fromkeys_fold. simpl.
  induction (dedup_first_occurrence l) as [| y m IH]; simpl; congruence.
Qed.

Lemma fromkeys_In (x : string) (l : list string) :
  In x (fromkeys l) <-> In x l.
Proof. rewrite fromkeys_dedup. apply dedup_first_occurrence_In. Qed.

Lemma fromkeys_NoDup (l : list string) : NoDup (fromkeys l).
Proof. rewrite fromkeys_dedup. apply dedup_first_occurrence_NoDup. Qed.

Lemma fromkeys_idempotent (l : list string) :
  fromkeys (fromkeys l) = fromkeys l.
Proof.
  rewrite (fromkeys_dedup (fromkeys l)).
  apply dedup_first_occurrence_fixed, fromkeys_NoDup.
Qed.

Lemma str_in_fromkeys (s : string) (l : list string) :
  str_in s (fromkeys l) = str_in s l.
Proof.
  destruct (str_in s l) eqn:E.
  - apply str_in_In. apply fromkeys_In. now apply str_in_In.
  - apply str_in_false. rewrite fromkeys_In. now apply str_in_false.
Qed.

(** ** Methods *)

Section Methods.

Context {imports : Imports}.

Lemma accepted_same_attributes (q q' : Question) (r : Response) :
  type q' = type q -> fields q' = fields q ->
  accepted q r -> accepted q' r.
Proof.
  unfold accepted, validate_response, get_type.
  intros -> ->. exact (fun H => H).
Qed.

Lemma add_response_unfold (r : Response) (q : Question) :
  add_response r q =
  if negb (String.eqb (Response_get_type r) (get_type q))
  then (Err (ValueError msg_invalid_response_type), q)
  else match validate_response q r with
       | inl e => (inl e, q)
       | inr _ => (Ok tt, with_response q r)
       end.
Proof.
  unfold add_response, bind, read, raise, lift, append_response. simpl.
  destruct (negb _); [reflexivity |].
  destruct (validate_response q r); reflexivity.
Qed.

Lemma add_response_accepted (r : Response) (q : Question) :
  accepted q r -> add_response r q = (Ok tt, with_response q r).
Proof.
  intros [Ht Hv]. rewrite add_response_unfold, Ht, String.eqb_refl, Hv.
  reflexivity.
Qed.

(** A call of [add_response] that raises leaves the question as it was. *)
Lemma add_response_raises (r : Response) (q q' : Question) (e : exn) :
  add_response r q = (Err e, q') -> q' = q.
Proof.
  rewrite add_response_unfold.
  destruct (negb _); [intros [= _ <-]; reflexivity |].
  destruct (validate_response q r); intros [= ]; congruence.
Qed.

Lemma add_response_returns (r : Response) (q q' : Question) :
  add_response r q = (Ok tt, q') -> accepted q r /\ q' = with_response q r.
Proof.
  rewrite add_response_unfold. unfold accepted.
  destruct (String.eqb _ _) eqn:E; simpl; [| discriminate].
  apply String.eqb_eq in E.
  destruct (validate_response q r) as [e | []] eqn:V; [discriminate |].
  intros [= <-]. repeat split; assumption.
Qed.

Lemma appends_ret {A : Type} (a : A) : appends_accepted (ret a).
Proof.
  intros q res q' [= _ <-]. repeat split. exists []. rewrite app_nil_r.
  split; [reflexivity | constructor].
Qed.

Lemma appends_raise {A : Type} (e : exn) : appends_accepted (raise e : Method A).
Proof.
  intros q res q' [= _ <-]. repeat split. exists []. rewrite app_nil_r.
  split; [reflexivity | constructor].
Qed.

Lemma appends_lift {A : Type} (r : result A) : appends_accepted (lift r).
Proof.
  intros q res q' [= _ <-]. repeat split. exists []. rewrite app_nil_r.
  split; [reflexivity | constructor].
Qed.

Lemma appends_bind {A B : Type} (m : Method A) (f : A -> Method B) :
  appends_accepted m -> (forall a, appends_accepted (f a)) ->
  appends_accepted (bind m f).
Proof.
  intros Hm Hf q res q'. unfold bind.
  destruct (m q) as [[e | a] q1] eqn:E; intros H.
  - injection H as <- <-. exact (Hm _ _ _ E).
  - destruct (Hm _ _ _ E) as (Ht & Ho & Hfd & added & Hr & Hacc).
    destruct (Hf a _ _ _ H) as (Ht' & Ho' & Hfd' & added' & Hr' & Hacc').
    repeat split; try congruence.
    exists (added ++ added')%list. split.
    + rewrite Hr', Hr. now rewrite app_assoc.
    + apply Forall_app. split; [assumption |].
      eapply Forall_impl; [| exact Hacc'].
      intros r. apply accepted_same_attributes; congruence.
Qed.

Lemma appends_add_response (r : Response) :
  appends_accepted (add_response r).
Proof.
  intros q [e | []] q' H.
  - apply add_response_raises in H. subst q'. repeat split.
    exists []. rewrite app_nil_r. split; [reflexivity | constructor].
  - apply add_response_returns in H. destruct H as [Hacc ->].
    repeat split. exists [r]. split; [reflexivity |].
    constructor; [assumption | constructor].
Qed.

Lemma appends_for_each (l : list Response) :
  appends_accepted (for_each add_response l).
Proof.
  induction l as [| r l IH]; simpl.
  - apply appends_ret.
  - apply appends_bind; [apply appends_add_response | intros _; exact IH].
Qed.

Lemma appends_initialize_responses
    (responses : option (list (dict + Response))) :
  appends_accepted (_initialize_responses responses).
Proof.
  destruct responses as [[| r l] |]; simpl; try apply appends_ret.
  apply appends_bind; [apply appends_lift |].
  intros objects. apply appends_for_each.
Qed.

Lemma bind_Ok {A B : Type} (m : Method A) (f : A -> Method B)
    (q q' : Question) (b : B) :
  bind m f q = (Ok b, q') ->
  exists a q1, m q = (Ok a, q1) /\ f a q1 = (Ok b, q').
Proof.
  unfold bind. destruct (m q) as [[e | a] q1]; [discriminate |].
  intros H. now exists a, q1.
Qed.

Lemma construct_Ok (self q : Question) (body : Method unit) :
  construct self body = Ok q -> body self = (Ok tt, q).
Proof.
  unfold construct. destruct (body self) as [[e | []] q1]; [discriminate |].
  now intros [= ->].
Qed.

(** An object built by [Question_init] and then run through a method that
    only appends accepted responses is well formed, once the subclass
    attributes are. *)
Lemma well_formed_after_init (object_id : option string)
    (attributes : Fields) (body : Method unit) (q : Question) :
  appends_accepted body ->
  fields_ok attributes ->
  construct (Question_init object_id (class_type attributes) attributes)
    body = Ok q ->
  well_formed q.
Proof.
  intros Hbody Hok H. apply construct_Ok in H.
  destruct (Hbody _ _ _ H) as (Ht & _ & Hf & added & Hr & Hacc).
  simpl in *. unfold well_formed. rewrite Ht, Hf, Hr. simpl.
  repeat split; try assumption.
  eapply Forall_impl; [| exact Hacc].
  intros r. apply accepted_same_attributes; assumption.
Qed.

Lemma well_formed_with_response (q : Question) (r : Response) :
  well_formed q -> accepted q r -> well_formed (with_response q r).
Proof.
  intros (Ht & Hok & Hall) Hacc. unfold well_formed. simpl.
  repeat split; try assumption.
  apply Forall_app. split.
  - eapply Forall_impl; [| exact Hall].
    intros r'. now apply accepted_same_attributes.
  - constructor; [| constructor].
    revert Hacc. now apply accepted_same_attributes.
Qed.

Lemma MultipleChoiceQuestion_Ok prompt choices answer responses object_id q :
  MultipleChoiceQuestion prompt choices answer responses object_id = Ok q ->
  str_in answer choices = true
  /\ fields q = MultipleChoiceFields prompt (fromkeys choices) answer.
Proof.
  unfold MultipleChoiceQuestion. intros H. apply construct_Ok in H.
  apply bind_Ok in H. destruct H as ([] & q1 & Hinit & H).
  destruct (appends_initialize_responses responses _ _ _ Hinit)
    as (_ & _ & Hf & _).
  destruct (str_in answer choices); [| discriminate].
  injection H as <-. split; [reflexivity | exact Hf].
Qed.

Lemma MatchingQuestion_Ok prompt left_choices right_choices answer responses
    object_id q :
  MatchingQuestion prompt left_choices right_choices answer responses
    object_id = Ok q ->
  forallb (fun v => str_in v (fromkeys left_choices)) (Dict.values answer)
  = true
  /\ forallb (fun v => str_in v (fromkeys right_choices)) (Dict.values answer)
     = true
  /\ fields q = MatchingFields prompt (fromkeys left_choices)
                  (fromkeys right_choices) answer.
Proof.
  unfold MatchingQuestion. intros H. apply construct_Ok in H.
  destruct (forallb _ _); [| discriminate].
  destruct (forallb _ _); [| discriminate]. simpl in H.
  destruct (appends_initialize_responses responses _ _ _ H)
    as (_ & _ & Hf & _).
  repeat split. exact Hf.
Qed.

Theorem constructed_well_formed (q : Question) :
  constructed q -> well_formed q.
Proof.
  induction 1 as [p c a rs oid q H | p l r a rs oid q H | p a rs oid q H
                 | b f a rs oid q H | q r q' _ IH H].
  - pose proof (MultipleChoiceQuestion_Ok _ _ _ _ _ _ H) as [Hin _].
    revert H. unfold MultipleChoiceQuestion.
    apply (well_formed_after_init _ (MultipleChoiceFields _ _ _)).
    + apply appends_bind; [apply appends_initialize_responses |].
      intros _. destruct (negb _); [apply appends_raise | apply appends_ret].
    + simpl. split; [apply fromkeys_idempotent |].
      now rewrite str_in_fromkeys.
  - pose proof (MatchingQuestion_Ok _ _ _ _ _ _ _ H) as (Hl & Hr & _).
    revert H. unfold MatchingQuestion.
    apply (well_formed_after_init _ (MatchingFields _ _ _ _)).
    + rewrite Hl, Hr. simpl. apply appends_initialize_responses.
    + simpl. repeat split; try apply fromkeys_idempotent; assumption.
  - revert H. unfold ShortAnswerQuestion.
    apply (well_formed_after_init _ (ShortAnswerFields _ _)).
    + apply appends_initialize_responses.
    + exact I.
  - revert H. unfold FillInTheBlankQuestion.
    apply (well_formed_after_init _ (FillInTheBlankFields _ _ _)).
    + apply appends_initialize_responses.
    + exact I.
  - apply add_response_returns in H. destruct H as [Hacc ->].
    now apply well_formed_with_response.
Qed.

End Methods.

(** ** The factory's discriminator *)

Lemma value_eq_str_true (v : value) (s : string) :
  value_eq_str v s = true <-> v = VStr s.
Proof.
  destruct v; simpl; try (split; discriminate).
  rewrite String.eqb_eq. split; congruence.
Qed.

Lemma value_eq_str_false (v : value) (s : string) :
  value_eq_str v s = false <-> v <> VStr s.
Proof.
  rewrite <- value_eq_str_true. destruct (value_eq_str v s); split; congruence.
Qed.

Section Factory.

Context {imports : Imports}.

Lemma create_from_dictionary_without_type (d : dict) :
  Dict.contains "type" d = false ->
  create_from_dictionary d = Err (KeyError "type").
Proof.
  intros H. unfold create_from_dictionary, dict_pop.
  apply DictFacts.remove_None in H. now rewrite H.
Qed.

Lemma create_from_dictionary_without_kind (d : dict) :
  Dict.contains "type" d = true ->
  Dict.contains "kind" d = false ->
  create_from_dictionary d = Err (KeyError "kind").
Proof.
  intros Ht Hk. unfold create_from_dictionary, dict_pop.
  destruct (DictFacts.remove_Some _ _ Ht) as [d1 E]. rewrite E. simpl.
  assert (Hk1 : Dict.contains "kind" d1 = false).
  { rewrite (DictFacts.contains_remove_other "type" "kind" d d1);
      [assumption | discriminate | assumption]. }
  apply DictFacts.remove_None in Hk1. now rewrite Hk1.
Qed.

(** With both tags in the mapping the two [pop]s go through, and the
    dispatch is on the value of [type] alone. *)
Lemma create_from_dictionary_tags (d : dict) (t : value) :
  Dict.lookup "type" d = Some t ->
  Dict.contains "kind" d = true ->
  exists d1 d2,
    Dict.remove "type" d = Some d1
    /\ Dict.remove "kind" d1 = Some d2
    /\ create_from_dictionary d =
       if is_None t then Err (ValueError msg_must_have_a_type)
       else if value_eq_str t "multiple_choice"
       then call_MultipleChoiceQuestion d2
       else if value_eq_str t "matching" then call_MatchingQuestion d2
       else if value_eq_str t "short_answer"
       then call_ShortAnswerQuestion d2
       else if value_eq_str t "fill_in_the_blank"
       then call_FillInTheBlankQuestion d2
       else Err (ValueError msg_not_supported).
Proof.
  intros Ht Hk.
  assert (Hc : Dict.contains "type" d = true).
  { apply DictFacts.contains_lookup. now exists t. }
  destruct (DictFacts.remove_Some _ _ Hc) as [d1 E1].
  assert (Hk1 : Dict.contains "kind" d1 = true).
  { rewrite (DictFacts.contains_remove_other "type" "kind" d d1);
      [assumption | discriminate | assumption]. }
  destruct (DictFacts.remove_Some _ _ Hk1) as [d2 E2].
  exists d1, d2. repeat split; try assumption.
  unfold create_from_dictionary, dict_pop, Dict.get.
  rewrite Ht, E1. simpl. rewrite E2. reflexivity.
Qed.

(** C1, as the code has it.  A mapping without a [type] key makes
    [create_a_question] raise [KeyError('type')]: the [pop] of line 46
    raises before the test of line 48, which would have raised the
    [ValueError] for a missing discriminator, is reached. *)
Theorem create_a_question_without_type (d : dict) :
  Dict.contains "type" d = false ->
  create_a_question (RepDict d) = Err (KeyError "type")
  /\ forall msg, create_a_question (RepDict d) <> Err (ValueError msg).
Proof.
  intros H. simpl. rewrite (create_from_dictionary_without_type d H).
  split; [reflexivity | discriminate].
Qed.

(** C10.  A mapping that has a [type] key and no [kind] key makes
    [create_a_question] raise [KeyError('kind')], whatever the discriminator
    names: the factory pops [kind] before it dispatches. *)
Theorem create_a_question_without_kind (d : dict) :
  Dict.contains "type" d = true ->
  Dict.contains "kind" d = false ->
  create_a_question (RepDict d) = Err (KeyError "kind").
Proof. intros Ht Hk. simpl. now apply create_from_dictionary_without_kind. Qed.

(** C5, amended.  For a mapping that has a [kind] key and whose [type] is
    present, is not [None] and is none of the four known tags,
    [create_a_question] raises the [ValueError] "This question type is not
    supported". *)
Theorem create_a_question_unsupported_type (d : dict) (t : value) :
  Dict.contains "kind" d = true ->
  Dict.lookup "type" d = Some t ->
  t <> VNone ->
  ~ In t [VStr "multiple_choice"; VStr "matching"; VStr "short_answer";
          VStr "fill_in_the_blank"] ->
  create_a_question (RepDict d) = Err (ValueError msg_not_supported).
Proof.
  intros Hk Ht Hnone Hnot. simpl.
  destruct (create_from_dictionary_tags d t Ht Hk) as (d1 & d2 & _ & _ & ->).
  assert (is_None t = false) as -> by (destruct t; [contradiction | reflexivity ..]).
  repeat match goal with
         | |- context [value_eq_str t ?s] =>
             let E := fresh in
             assert (E : value_eq_str t s = false)
               by (apply value_eq_str_false; intros ->; apply Hnot;
                   simpl; tauto);
             rewrite E; clear E
         end.
  reflexivity.
Qed.

End Factory.

(** ** Attaching and validating responses *)

Section Responses.

Context {imports : Imports}.

(** C3.  When the type of the response differs from the type of the
    question, [add_response] raises the [ValueError] "Invalid response
    type" and the question, with its response sequence, is what it was
    before the call. *)
Theorem add_response_type_mismatch (q : Question) (r : Response) :
  Response_get_type r <> get_type q ->
  add_response r q = (Err (ValueError msg_invalid_response_type), q)
  /\ get_responses (snd (add_response r q)) = get_responses q.
Proof.
  intros H. apply String.eqb_neq in H.
  rewrite add_response_unfold, H. split; reflexivity.
Qed.

Lemma MultipleChoiceQuestion_validate_response_spec
    (choices : list string) (r : Response) :
  MultipleChoiceQuestion_validate_response choices r =
  match Dict.lookup "choice" (Response_json_data r) with
  | None => Err (ValueError msg_no_choice_key)
  | Some choice =>
      if value_in choice choices then Ok tt
      else Err (ValueError msg_choice_not_reflected)
  end.
Proof.
  unfold MultipleChoiceQuestion_validate_response.
  destruct (Dict.lookup "choice" (Response_json_data r)) as [c |] eqn:E.
  - assert (H : Dict.contains "choice" (Response_json_data r) = true).
    { apply DictFacts.contains_lookup. now exists c. }
    rewrite H. simpl. now destruct (value_in c choices).
  - apply DictFacts.not_contains_lookup in E. now rewrite E.
Qed.

(** C6.  On a multiple choice question and a response of type
    [multiple_choice]: when the payload has a [choice] that is one of the
    question's choices, [add_response] returns and the response sequence is
    the old one with the response appended; otherwise it raises a
    [ValueError] and the question is unchanged. *)
Theorem multiple_choice_add_response (q : Question) (r : Response)
    (prompt : string) (choices : list string) (answer : string) :
  constructed q ->
  fields q = MultipleChoiceFields prompt choices answer ->
  Response_get_type r = "multiple_choice" ->
  ((exists choice,
       Dict.lookup "choice" (Response_json_data r) = Some choice
       /\ value_in choice choices = true) ->
   add_response r q = (Ok tt, with_response q r)
   /\ get_responses (with_response q r) = get_responses q ++ [r]
   /\ List.length (get_responses (with_response q r))
      = S (List.length (get_responses q)))
  /\ (~ (exists choice,
           Dict.lookup "choice" (Response_json_data r) = Some choice
           /\ value_in choice choices = true) ->
      (add_response r q = (Err (ValueError msg_no_choice_key), q)
       \/ add_response r q = (Err (ValueError msg_choice_not_reflected), q))
      /\ get_responses (snd (add_response r q)) = get_responses q).
Proof.
  intros Hq Hf Hr.
  destruct (constructed_well_formed q Hq) as (Ht & _ & _).
  rewrite Hf in Ht. simpl in Ht.
  rewrite add_response_unfold. unfold get_type.
  rewrite Hr, Ht. simpl. unfold validate_response. rewrite Hf.
  rewrite MultipleChoiceQuestion_validate_response_spec.
  split.
  - intros (c & -> & ->). repeat split.
    unfold get_responses, with_response. simpl.
    rewrite length_app. simpl. lia.
  - intros Hno.
    destruct (Dict.lookup "choice" (Response_json_data r)) as [c |].
    + destruct (value_in c choices) eqn:E.
      * exfalso. apply Hno. now exists c.
      * split; [now right | reflexivity].
    + split; [now left | reflexivity].
Qed.

Lemma right_choice_ok (right_choices : list string) (v : value) :
  value_in v right_choices || is_None v = true <->
  v = VNone \/ exists s, v = VStr s /\ In s right_choices.
Proof.
  rewrite orb_true_iff, value_in_spec. split.
  - intros [H | H]; [now right | left]. now destruct v.
  - intros [-> | H]; [now right | now left].
Qed.

(** C7, amended.  [validate_response] of a matching question returns
    exactly when the payload has an [answer_mapping] that is a mapping and
    matches the choices.  It raises a [ValueError] when the key is absent
    and when the mapping does not match, and [AttributeError] when
    [answer_mapping] is not a mapping. *)
Theorem matching_validate_response (q : Question) (r : Response)
    (prompt : string) (left_choices right_choices : list string)
    (answer : list (string * string)) :
  fields q = MatchingFields prompt left_choices right_choices answer ->
  match Dict.lookup "answer_mapping" (Response_json_data r) with
  | None => validate_response q r = Err (ValueError msg_no_answer_mapping)
  | Some (VDict answer_mapping) =>
      (matches_choices left_choices right_choices answer_mapping ->
       validate_response q r = Ok tt)
      /\ (~ matches_choices left_choices right_choices answer_mapping ->
          validate_response q r = Err (ValueError msg_left_must_match)
          \/ validate_response q r
             = Err (ValueError msg_right_not_contained))
  | Some _ => validate_response q r = Err (AttributeError "keys")
  end.
Proof.
  intros Hf. unfold validate_response. rewrite Hf.
  unfold MatchingQuestion_validate_response.
  destruct (Dict.lookup "answer_mapping" (Response_json_data r))
    as [v |] eqn:E.
  - assert (H : Dict.contains "answer_mapping" (Response_json_data r) = true).
    { apply DictFacts.contains_lookup. now exists v. }
    rewrite H. simpl. destruct v as [| s | l | am]; try reflexivity.
    unfold Dict.keys, Dict.values. rewrite !length_map, Nat.eqb_refl. simpl.
    unfold matches_choices, Dict.keys, Dict.values.
    destruct (list_eq_dec string_dec (map fst am) left_choices) as [Hk | Hk];
      simpl.
    + destruct (forallb _ (map snd am)) eqn:Hv; simpl.
      * split; [reflexivity |]. intros Hno. exfalso. apply Hno.
        split; [assumption |]. rewrite forallb_forall in Hv.
        apply Forall_forall. intros x Hx. apply right_choice_ok. now apply Hv.
      * split; [| now right]. intros [_ Hall]. exfalso.
        assert (forallb (fun right_choice =>
                           value_in right_choice right_choices
                           || is_None right_choice) (map snd am) = true).
        { apply forallb_forall. intros x Hx. apply right_choice_ok.
          rewrite Forall_forall in Hall. now apply Hall. }
        congruence.
    + split; [| now left]. intros [Hk' _]. contradiction.
  - apply DictFacts.not_contains_lookup in E. now rewrite E.
Qed.

End Responses.

(** ** The constructors *)

Section Constructors.

Context {imports : Imports}.

Lemma response_objects_only_objects (l : list (dict + Response)) :
  Forall (fun x => exists r : Response, x = inr r) l ->
  exists objects, response_objects l = Ok objects.
Proof.
  induction 1 as [| x l [r ->] _ [objects IH]]; simpl.
  - now exists [].
  - rewrite IH. simpl. now exists (r :: objects).
Qed.

(** On a multiple choice question every error of [add_response], and so of
    a loop of them, is a [ValueError]. *)
Lemma multiple_choice_add_response_error (r : Response) (q q' : Question)
    (e : exn) prompt choices answer :
  fields q = MultipleChoiceFields prompt choices answer ->
  add_response r q = (Err e, q') -> exists msg, e = ValueError msg.
Proof.
  intros Hf. rewrite add_response_unfold.
  destruct (negb _); [intros [= <- _]; eauto |].
  unfold validate_response. rewrite Hf.
  rewrite MultipleChoiceQuestion_validate_response_spec.
  destruct (Dict.lookup "choice" (Response_json_data r)) as [c |].
  - destruct (value_in c choices); [discriminate |]. intros [= <- _]. eauto.
  - intros [= <- _]. eauto.
Qed.

Lemma multiple_choice_for_each_error (l : list Response) (q q' : Question)
    (e : exn) prompt choices answer :
  fields q = MultipleChoiceFields prompt choices answer ->
  for_each add_response l q = (Err e, q') -> exists msg, e = ValueError msg.
Proof.
  revert q. induction l as [| r l IH]; intros q Hf; simpl; [discriminate |].
  unfold bind. destruct (add_response r q) as [[e1 | []] q1] eqn:E.
  - intros [= <- _]. eapply multiple_choice_add_response_error; eassumption.
  - apply add_response_returns in E. destruct E as [_ ->].
    apply IH. exact Hf.
Qed.

(** C9.  When the answer is not among the choices, constructing a multiple
    choice question fails whatever the responses: without responses it
    raises the [ValueError] "The answer must be reflected in the choices",
    and with [Response] objects as responses it raises a [ValueError] too.
    So a construction that returns had its answer among the original
    choices. *)
Theorem multiple_choice_answer_not_in_choices (prompt : string)
    (choices : list string) (answer : string) (object_id : option string) :
  ~ In answer choices ->
  MultipleChoiceQuestion prompt choices answer None object_id
  = Err (ValueError msg_answer_in_choices)
  /\ MultipleChoiceQuestion prompt choices answer (Some []) object_id
     = Err (ValueError msg_answer_in_choices)
  /\ (forall responses,
        only_objects responses ->
        exists msg,
          MultipleChoiceQuestion prompt choices answer responses object_id
          = Err (ValueError msg))
  /\ forall responses q,
       MultipleChoiceQuestion prompt choices answer responses object_id
       <> Ok q.
Proof.
  intros Hnot. apply str_in_false in Hnot.
  split; [| split; [| split]].
  - unfold MultipleChoiceQuestion, construct, bind. simpl.
    now rewrite Hnot.
  - unfold MultipleChoiceQuestion, construct, bind. simpl.
    now rewrite Hnot.
  - intros responses Hobj. unfold MultipleChoiceQuestion, construct, bind.
    rewrite Hnot. cbn [negb].
    destruct responses as [[| x l] |]; [simpl; eauto | | simpl; eauto].
    destruct (response_objects_only_objects (x :: l) Hobj) as [objects E].
    unfold _initialize_responses, lift, bind. rewrite E.
    unfold Ok. cbv iota beta.
    match goal with
    | |- context [for_each add_response objects ?q0] =>
        destruct (for_each add_response objects q0) as [[e | []] q1] eqn:F;
          [| simpl; eauto]
    end.
    eapply multiple_choice_for_each_error in F; [| reflexivity].
    destruct F as [msg ->]. eauto.
  - intros responses q H. apply MultipleChoiceQuestion_Ok in H.
    destruct H as [H _]. congruence.
Qed.

Lemma forallb_str_in (l : list string) (values : list string) :
  forallb (fun v => str_in v l) values = true <->
  Forall (fun v => In v l) values.
Proof.
  rewrite forallb_forall, Forall_forall.
  split; intros H x Hx; apply str_in_In; now apply H.
Qed.

(** C4.  A matching question is constructed only if every value of
    [answer] is in [left_choices] and in [right_choices]; a value that is
    not in [right_choices] makes the constructor raise one of its two
    [ValueError]s; and when all the values pass, the construction returns
    whatever the keys of [answer] are. *)
Theorem matching_answer_values_checked (prompt : string)
    (left_choices right_choices : list string)
    (answer : list (string * string))
    (responses : option (list (dict + Response)))
    (object_id : option string) :
  (forall q,
      MatchingQuestion prompt left_choices right_choices answer responses
        object_id = Ok q ->
      Forall (fun v => In v left_choices /\ In v right_choices)
        (Dict.values answer))
  /\ (Exists (fun v => ~ In v right_choices) (Dict.values answer) ->
      MatchingQuestion prompt left_choices right_choices answer responses
        object_id = Err (ValueError msg_left_choices)
      \/ MatchingQuestion prompt left_choices right_choices answer responses
           object_id = Err (ValueError msg_right_choices))
  /\ (Forall (fun v => In v left_choices /\ In v right_choices)
        (Dict.values answer) ->
      exists q,
        MatchingQuestion prompt left_choices right_choices answer None
          object_id = Ok q
        /\ fields q = MatchingFields prompt (fromkeys left_choices)
                        (fromkeys right_choices) answer).
Proof.
  repeat split.
  - intros q H. apply MatchingQuestion_Ok in H. destruct H as (Hl & Hr & _).
    apply forallb_str_in in Hl, Hr. rewrite Forall_forall in *.
    intros v Hv. split; apply fromkeys_In; auto.
  - intros Hex. unfold MatchingQuestion.
    destruct (forallb (fun v => str_in v (fromkeys left_choices))
                (Dict.values answer)) eqn:Hl; simpl; [| now left].
    destruct (forallb (fun v => str_in v (fromkeys right_choices))
                (Dict.values answer)) eqn:Hr; simpl; [| now right].
    exfalso. apply forallb_str_in in Hr.
    apply Exists_exists in Hex. destruct Hex as (v & Hv & Hnot).
    rewrite Forall_forall in Hr. apply Hnot, fromkeys_In. auto.
  - intros Hall. unfold MatchingQuestion.
    assert (Hl : forallb (fun v => str_in v (fromkeys left_choices))
                   (Dict.values answer) = true).
    { apply forallb_str_in. eapply Forall_impl; [| exact Hall].
      intros v [H _]. now apply fromkeys_In. }
    assert (Hr : forallb (fun v => str_in v (fromkeys right_choices))
                   (Dict.values answer) = true).
    { apply forallb_str_in. eapply Forall_impl; [| exact Hall].
      intros v [_ H]. now apply fromkeys_In. }
    rewrite Hl, Hr. simpl. eexists. split; reflexivity.
Qed.

(** C8.  The choices a constructor stores are its argument without
    duplicates, each entry at the place of its first occurrence: for the
    choices of a multiple choice question and for the left and right
    choices of a matching question. *)
Theorem constructors_deduplicate_choices :
  (forall prompt choices answer responses object_id q,
      MultipleChoiceQuestion prompt choices answer responses object_id
      = Ok q ->
      fields q = MultipleChoiceFields prompt
                   (dedup_first_occurrence choices) answer)
  /\ (forall prompt left_choices right_choices answer responses object_id q,
         MatchingQuestion prompt left_choices right_choices answer responses
           object_id = Ok q ->
         fields q = MatchingFields prompt
                      (dedup_first_occurrence left_choices)
                      (dedup_first_occurrence right_choices) answer)
  /\ (forall choices,
         NoDup (dedup_first_occurrence choices)
         /\ forall x, In x (dedup_first_occurrence choices) <-> In x choices)
  /\ fields_of_result
       (MultipleChoiceQuestion "p" ["a"; "b"; "a"; "c"] "a" None None)
     = Some (MultipleChoiceFields "p" ["a"; "b"; "c"] "a").
Proof.
  repeat split.
  - intros p c a rs oid q H. apply MultipleChoiceQuestion_Ok in H.
    destruct H as [_ ->]. now rewrite fromkeys_dedup.
  - intros p l r a rs oid q H. apply MatchingQuestion_Ok in H.
    destruct H as (_ & _ & ->). now rewrite !fromkeys_dedup.
  - apply dedup_first_occurrence_NoDup.
  - apply dedup_first_occurrence_In.
  - apply dedup_first_occurrence_In.
Qed.

End Constructors.

(** ** The round trip through [json_data] and [create_a_question] *)

Section RoundTrip.

Context {imports : Imports} {laws : ResponseLaws}.

Lemma as_strs_map (param : string) (l : list string) :
  as_strs param (map VStr l) = Ok l.
Proof.
  induction l as [| s l IH]; simpl; [reflexivity |]. now rewrite IH.
Qed.

Lemma as_str_items_map (param : string) (d : list (string * string)) :
  as_str_items param (map (fun kv => (fst kv, VStr (snd kv))) d) = Ok d.
Proof.
  induction d as [| [k v] d IH]; simpl; [reflexivity |]. now rewrite IH.
Qed.

Lemma as_response_items_map (rs : list Response) :
  as_response_items (map (fun r => VDict (Response_json_data r)) rs)
  = Ok (map (fun r => inl (Response_json_data r)) rs).
Proof.
  induction rs as [| r rs IH]; simpl; [reflexivity |]. now rewrite IH.
Qed.

Lemma response_objects_map (rs : list Response) :
  response_objects (map (fun r => inl (Response_json_data r)) rs) = Ok rs.
Proof.
  induction rs as [| r rs IH]; simpl; [reflexivity |].
  rewrite create_a_response_json_data. simpl. now rewrite IH.
Qed.

Lemma initialize_serialized_responses (rs : list Response) (q : Question) :
  _initialize_responses
    (Some (map (fun r => inl (Response_json_data r)) rs)) q
  = for_each add_response rs q.
Proof.
  destruct rs as [| r rs]; [reflexivity |].
  unfold _initialize_responses.
  change (map (fun r0 => inl (Response_json_data r0)) (r :: rs))
    with (inl (Response_json_data r)
            :: map (fun r0 => @inl dict Response (Response_json_data r0)) rs).
  cbv beta iota.
  change (inl (Response_json_data r)
            :: map (fun r0 => @inl dict Response (Response_json_data r0)) rs)
    with (map (fun r0 => @inl dict Response (Response_json_data r0))
            (r :: rs)).
  unfold bind, lift. now rewrite response_objects_map.
Qed.

(** Adding accepted responses one by one appends them all. *)
Lemma for_each_add_response_accepted (rs : list Response) (q : Question) :
  Forall (accepted q) rs ->
  for_each add_response rs q
  = (Ok tt, {| type := type q; object_id := object_id q;
               _responses := _responses q ++ rs; fields := fields q |}).
Proof.
  revert q. induction rs as [| r rs IH]; intros q Hall; simpl.
  - rewrite app_nil_r. now destruct q.
  - inversion Hall as [| ? ? Hr Hrs]; subst.
    unfold bind. rewrite (add_response_accepted r q Hr).
    rewrite IH.
    + simpl. now rewrite <- app_assoc.
    + eapply Forall_impl; [| exact Hrs].
      intros r'. now apply accepted_same_attributes.
Qed.

(** The constructor's pass over the serialized responses of a well formed
    question rebuilds its response sequence. *)
Lemma initialize_rebuilds (ty oid : string) (rs : list Response)
    (f : Fields) :
  Forall (accepted (mkQuestion ty oid rs f)) rs ->
  _initialize_responses
    (Some (map (fun r => inl (Response_json_data r)) rs))
    (mkQuestion ty oid [] f)
  = (Ok tt, mkQuestion ty oid rs f).
Proof.
  intros Hall. rewrite initialize_serialized_responses.
  rewrite for_each_add_response_accepted; [reflexivity |].
  eapply Forall_impl; [| exact Hall].
  intros r. now apply accepted_same_attributes.
Qed.

Lemma list_eq_refl {A : Type} (eq : A -> A -> bool) (l : list A) :
  (forall a, eq a a = true) -> list_eq eq l l = true.
Proof.
  intros H. induction l as [| a l IH]; simpl; [reflexivity |].
  now rewrite H, IH.
Qed.

Lemma str_dict_eq_refl (d : list (string * string)) : str_dict_eq d d = true.
Proof.
  unfold str_dict_eq. apply forallb_forall. intros k _.
  destruct (Dict.lookup k d); simpl; [apply String.eqb_refl | reflexivity].
Qed.

Lemma Question_eq_refl (q : Question) : Question_eq q q = true.
Proof.
  unfold Question_eq. rewrite !String.eqb_refl.
  rewrite (list_eq_refl Response_eq) by apply Response_eq_refl. simpl.
  destruct (fields q);
    rewrite ?String.eqb_refl, ?(list_eq_refl String.eqb), ?str_dict_eq_refl;
    try reflexivity; apply String.eqb_refl.
Qed.

Lemma well_formed_round_trip (q : Question) :
  well_formed q -> create_a_question (RepDict (json_data q)) = Ok q.
Proof.
  intros (Ht & Hok & Hall).
  destruct q as [ty oid rs f]. simpl in *. subst ty.
  destruct f as [p c a | p l r a | p a | b f a]; simpl in *;
    unfold create_from_dictionary; simpl.
  - destruct Hok as [Hc Ha].
    unfold call_MultipleChoiceQuestion. simpl.
    unfold str_list, responses_json, as_str_list, as_responses.
    rewrite as_strs_map, as_response_items_map. simpl.
    unfold MultipleChoiceQuestion, Question_init, construct, bind.
    rewrite Hc, (initialize_rebuilds _ _ _ _ Hall), Ha. reflexivity.
  - destruct Hok as (Hl & Hr & Hvl & Hvr).
    unfold call_MatchingQuestion. simpl.
    unfold str_list, str_dict, responses_json, as_str_list, as_str_dict,
      as_responses.
    rewrite !as_strs_map, as_str_items_map, as_response_items_map. simpl.
    unfold MatchingQuestion, Question_init, construct.
    rewrite Hl, Hr, Hvl, Hvr. cbn [negb].
    rewrite (initialize_rebuilds _ _ _ _ Hall). reflexivity.
  - unfold call_ShortAnswerQuestion. simpl.
    unfold responses_json, as_responses.
    rewrite as_response_items_map. simpl.
    unfold ShortAnswerQuestion, Question_init, construct.
    rewrite (initialize_rebuilds _ _ _ _ Hall). reflexivity.
  - unfold call_FillInTheBlankQuestion. simpl.
    unfold responses_json, as_responses.
    rewrite as_response_items_map. simpl.
    unfold FillInTheBlankQuestion, Question_init, construct.
    rewrite (initialize_rebuilds _ _ _ _ Hall). reflexivity.
Qed.

Lemma json_data_type (q : Question) :
  Dict.lookup "type" (json_data q) = Some (VStr (class_type (fields q))).
Proof. unfold json_data. destruct (fields q); reflexivity. Qed.

(** C2.  For a validly constructed question [q], of any of the four
    classes and with any responses attached, the [type] entry of
    [q.json_data] is the tag of its class, and [create_a_question] on
    [q.json_data] returns a question that [==] holds equal to [q]: the same
    class and the same attributes, the responses included. *)
Theorem json_data_round_trip (q : Question) :
  constructed q ->
  Dict.lookup "type" (json_data q) = Some (VStr (class_type (fields q)))
  /\ get_type q = class_type (fields q)
  /\ exists q',
       create_a_question (RepDict (json_data q)) = Ok q'
       /\ Question_eq q' q = true
       /\ q' = q.
Proof.
  intros H. apply constructed_well_formed in H.
  split; [apply json_data_type |].
  split; [exact (proj1 H) |].
  exists q. split; [now apply well_formed_round_trip |].
  split; [apply Question_eq_refl | reflexivity].
Qed.

End RoundTrip.

(** * Further properties of the methods *)

Section Attaching.

Context {imports : Imports}.

Lemma MatchingQuestion_validate_response_spec
    (left_choices right_choices : list string) (r : Response) :
  MatchingQuestion_validate_response left_choices right_choices r =
  match Dict.lookup "answer_mapping" (Response_json_data r) with
  | None => Err (ValueError msg_no_answer_mapping)
  | Some (VDict answer_mapping) =>
      if list_eq_dec string_dec (Dict.keys answer_mapping) left_choices
      then if forallb (fun right_choice =>
                         value_in right_choice right_choices
                         || is_None right_choice)
                (Dict.values answer_mapping)
           then Ok tt
           else Err (ValueError msg_right_not_contained)
      else Err (ValueError msg_left_must_match)
  | Some _ => Err (AttributeError "keys")
  end.
Proof.
  unfold MatchingQuestion_validate_response.
  destruct (Dict.lookup "answer_mapping" (Response_json_data r))
    as [v |] eqn:E.
  - assert (H : Dict.contains "answer_mapping" (Response_json_data r) = true).
    { apply DictFacts.contains_lookup. now exists v. }
    rewrite H. simpl. destruct v as [| s | l | am]; try reflexivity.
    unfold Dict.keys, Dict.values. rewrite !length_map, Nat.eqb_refl. simpl.
    destruct (list_eq_dec string_dec (map fst am) left_choices); simpl;
      [| reflexivity].
    now destruct (forallb _ (map snd am)).
  - apply DictFacts.not_contains_lookup in E. now rewrite E.
Qed.

Lemma matches_choices_checks (left_choices right_choices : list string)
    (answer_mapping : dict) :
  matches_choices left_choices right_choices answer_mapping <->
  Dict.keys answer_mapping = left_choices
  /\ forallb (fun right_choice =>
                value_in right_choice right_choices || is_None right_choice)
       (Dict.values answer_mapping) = true.
Proof.
  unfold matches_choices. rewrite forallb_forall, Forall_forall.
  split; intros [Hk Hv]; (split; [exact Hk |]);
    intros x Hx; apply right_choice_ok; now apply Hv.
Qed.

(** [add_response] is all or nothing, on every question: either the
    response is accepted and the call returns with the response appended
    last, or the call raises and the question is what it was. *)
Theorem add_response_all_or_nothing (q : Question) (r : Response) :
  (accepted q r
   /\ add_response r q = (Ok tt, with_response q r)
   /\ get_responses (snd (add_response r q)) = get_responses q ++ [r]
   /\ get_type (snd (add_response r q)) = get_type q
   /\ object_id (snd (add_response r q)) = object_id q
   /\ fields (snd (add_response r q)) = fields q)
  \/ (~ accepted q r /\ exists e, add_response r q = (Err e, q)).
Proof.
  rewrite add_response_unfold. unfold accepted.
  destruct (String.eqb (Response_get_type r) (get_type q)) eqn:E; simpl.
  - apply String.eqb_eq in E.
    destruct (validate_response q r) as [e | []] eqn:V.
    + right. split; [intros [_ H]; discriminate | now exists e].
    + left. repeat split; assumption.
  - apply String.eqb_neq in E. right.
    split; [intros [H _]; contradiction | eauto].
Qed.

(** The errors [validate_response] can raise.  A multiple choice question
    raises one of its two [ValueError]s; a matching question one of its three
    [ValueError]s, or [AttributeError] on an [answer_mapping] without
    [keys]; the two other classes never raise.  The [assert] of the matching
    class never fails and no lookup raises [KeyError]. *)
Theorem validate_response_errors (q : Question) (r : Response) (e : exn) :
  validate_response q r = Err e ->
  match fields q with
  | MultipleChoiceFields _ _ _ =>
      e = ValueError msg_no_choice_key
      \/ e = ValueError msg_choice_not_reflected
  | MatchingFields _ _ _ _ =>
      e = ValueError msg_no_answer_mapping
      \/ e = ValueError msg_left_must_match
      \/ e = ValueError msg_right_not_contained
      \/ e = AttributeError "keys"
  | ShortAnswerFields _ _ => False
  | FillInTheBlankFields _ _ _ => False
  end.
Proof.
  unfold validate_response.
  destruct (fields q) as [p c a | p l rc a | p a | b f a].
  - rewrite MultipleChoiceQuestion_validate_response_spec.
    destruct (Dict.lookup "choice" (Response_json_data r)) as [v |].
    + destruct (value_in v c); [discriminate |]. intros [= <-]. now right.
    + intros [= <-]. now left.
  - rewrite MatchingQuestion_validate_response_spec.
    destruct (Dict.lookup "answer_mapping" (Response_json_data r))
      as [[| s | vs | am] |]; try (intros [= <-]; tauto).
    destruct (list_eq_dec string_dec (Dict.keys am) l);
      [| intros [= <-]; tauto].
    destruct (forallb _ (Dict.values am)); [discriminate |].
    intros [= <-]. tauto.
  - discriminate.
  - discriminate.
Qed.

(** A short answer or fill in the blank question takes every response of
    its own type, whatever the payload. *)
Theorem free_text_add_response (q : Question) (r : Response) :
  (exists prompt answer, fields q = ShortAnswerFields prompt answer)
  \/ (exists before_prompt after_prompt answer,
         fields q = FillInTheBlankFields before_prompt after_prompt answer) ->
  Response_get_type r = get_type q ->
  add_response r q = (Ok tt, with_response q r).
Proof.
  intros Hf Ht. apply add_response_accepted. split; [exact Ht |].
  unfold validate_response.
  destruct Hf as [(p & a & ->) | (b & f & a & ->)]; reflexivity.
Qed.

(** [add_response] on a matching question, for a response of the question's
    type whose [answer_mapping] is a mapping: the response is appended when
    the keys are the left choices in order and every value is [None] or a
    right choice, and otherwise a [ValueError] is raised and the question is
    unchanged. *)
Theorem matching_add_response (q : Question) (r : Response)
    (prompt : string) (left_choices right_choices : list string)
    (answer : list (string * string)) (answer_mapping : dict) :
  fields q = MatchingFields prompt left_choices right_choices answer ->
  Response_get_type r = get_type q ->
  Dict.lookup "answer_mapping" (Response_json_data r)
  = Some (VDict answer_mapping) ->
  (matches_choices left_choices right_choices answer_mapping ->
   add_response r q = (Ok tt, with_response q r))
  /\ (~ matches_choices left_choices right_choices answer_mapping ->
      add_response r q = (Err (ValueError msg_left_must_match), q)
      \/ add_response r q = (Err (ValueError msg_right_not_contained), q)).
Proof.
  intros Hf Ht Ham. rewrite add_response_unfold, Ht, String.eqb_refl. simpl.
  unfold validate_response. rewrite Hf.
  rewrite MatchingQuestion_validate_response_spec, Ham.
  rewrite matches_choices_checks.
  destruct (list_eq_dec string_dec (Dict.keys answer_mapping) left_choices)
    as [Hk | Hk].
  - destruct (forallb _ (Dict.values answer_mapping)) eqn:Hv.
    + split; [reflexivity |]. intros H. exfalso. now apply H.
    + split; [intros [_ H]; discriminate | now right].
  - split; [intros [H _]; contradiction | now left].
Qed.

End Attaching.

(** * Further properties of the constructors *)

Section Building.

Context {imports : Imports}.

(** What every reachable question keeps of its attributes: the stored choice
    lists have no duplicates, the answer of a multiple choice question is one
    of its stored choices, and every value of a matching answer is a stored
    left choice and a stored right choice. *)
Theorem constructed_attributes (q : Question) :
  constructed q ->
  match fields q with
  | MultipleChoiceFields _ choices answer => NoDup choices /\ In answer choices
  | MatchingFields _ left_choices right_choices answer =>
      NoDup left_choices /\ NoDup right_choices
      /\ Forall (fun v => In v left_choices /\ In v right_choices)
           (Dict.values answer)
  | ShortAnswerFields _ _ => True
  | FillInTheBlankFields _ _ _ => True
  end.
Proof.
  intros H. destruct (constructed_well_formed q H) as (_ & Hok & _).
  destruct (fields q) as [p c a | p l r a | p a | b f a]; simpl in Hok;
    try exact I.
  - destruct Hok as [Hc Ha]. split.
    + rewrite <- Hc. apply fromkeys_NoDup.
    + now apply str_in_In.
  - destruct Hok as (Hl & Hr & Hvl & Hvr). repeat split.
    + rewrite <- Hl. apply fromkeys_NoDup.
    + rewrite <- Hr. apply fromkeys_NoDup.
    + rewrite forallb_forall in Hvl, Hvr. apply Forall_forall.
      intros v Hv. split; apply str_in_In; auto.
Qed.

(** Every response a reachable question holds has the question's type and
    passes its [validate_response]; on a multiple choice question each one
    carries a [choice] that is a text among the stored choices. *)
Theorem constructed_responses (q : Question) :
  constructed q ->
  Forall (fun r => Response_get_type r = get_type q
                   /\ validate_response q r = Ok tt) (get_responses q)
  /\ forall prompt choices answer,
       fields q = MultipleChoiceFields prompt choices answer ->
       Forall (fun r => exists s,
                   Dict.lookup "choice" (Response_json_data r) = Some (VStr s)
                   /\ In s choices) (get_responses q).
Proof.
  intros H. destruct (constructed_well_formed q H) as (_ & _ & Hall).
  split; [exact Hall |].
  intros p c a Hf. eapply Forall_impl; [| exact Hall].
  intros r [_ Hv]. unfold validate_response in Hv. rewrite Hf in Hv.
  rewrite MultipleChoiceQuestion_validate_response_spec in Hv.
  destruct (Dict.lookup "choice" (Response_json_data r)) as [v |];
    [| discriminate].
  destruct (value_in v c) eqn:E; [| discriminate].
  apply value_in_spec in E. destruct E as (s & -> & Hin). now exists s.
Qed.

Lemma construct_attributes (oid : option string) (ty : string)
    (attributes : Fields) (body : Method unit) (q : Question) :
  appends_accepted body ->
  construct (Question_init oid ty attributes) body = Ok q ->
  type q = ty
  /\ object_id q = match oid with
                   | None => uuid4
                   | Some id => id
                   end
  /\ fields q = attributes.
Proof.
  intros Hbody H. apply construct_Ok in H.
  destruct (Hbody _ _ _ H) as (Ht & Ho & Hf & _). auto.
Qed.

Lemma MultipleChoiceQuestion_attributes prompt choices answer responses oid
    q :
  MultipleChoiceQuestion prompt choices answer responses oid = Ok q ->
  type q = "multiple_choice"
  /\ object_id q = match oid with None => uuid4 | Some id => id end
  /\ fields q = MultipleChoiceFields prompt (fromkeys choices) answer.
Proof.
  apply construct_attributes.
  apply appends_bind; [apply appends_initialize_responses |].
  intros _. destruct (negb _); [apply appends_raise | apply appends_ret].
Qed.

Lemma MatchingQuestion_attributes prompt left_choices right_choices answer
    responses oid q :
  MatchingQuestion prompt left_choices right_choices answer responses oid
  = Ok q ->
  type q = "matching"
  /\ object_id q = match oid with None => uuid4 | Some id => id end
  /\ fields q = MatchingFields prompt (fromkeys left_choices)
                  (fromkeys right_choices) answer.
Proof.
  apply construct_attributes.
  destruct (negb _); [apply appends_raise |].
  destruct (negb _); [apply appends_raise |].
  apply appends_initialize_responses.
Qed.

Lemma ShortAnswerQuestion_attributes prompt answer responses oid q :
  ShortAnswerQuestion prompt answer responses oid = Ok q ->
  type q = "short_answer"
  /\ object_id q = match oid with None => uuid4 | Some id => id end
  /\ fields q = ShortAnswerFields prompt answer.
Proof. apply construct_attributes, appends_initialize_responses. Qed.

Lemma FillInTheBlankQuestion_attributes before_prompt after_prompt answer
    responses oid q :
  FillInTheBlankQuestion before_prompt after_prompt answer responses oid
  = Ok q ->
  type q = "fill_in_the_blank"
  /\ object_id q = match oid with None => uuid4 | Some id => id end
  /\ fields q = FillInTheBlankFields before_prompt after_prompt answer.
Proof. apply construct_attributes, appends_initialize_responses. Qed.

(** A constructor that returns kept the [object_id] it was given, or took
    the generated one when it was given [None], whatever responses it
    attached on the way. *)
Theorem constructors_object_id (oid : option string)
    (responses : option (list (dict + Response))) (q : Question) :
  (exists prompt choices answer,
      MultipleChoiceQuestion prompt choices answer responses oid = Ok q)
  \/ (exists prompt left_choices right_choices answer,
         MatchingQuestion prompt left_choices right_choices answer responses
           oid = Ok q)
  \/ (exists prompt answer,
         ShortAnswerQuestion prompt answer responses oid = Ok q)
  \/ (exists before_prompt after_prompt answer,
         FillInTheBlankQuestion before_prompt after_prompt answer responses
           oid = Ok q) ->
  object_id q = match oid with
                | None => uuid4
                | Some id => id
                end.
Proof.
  intros [(p & c & a & H) | [(p & l & r & a & H) | [(p & a & H)
                                                   | (b & f & a & H)]]].
  - now apply MultipleChoiceQuestion_attributes in H.
  - now apply MatchingQuestion_attributes in H.
  - now apply ShortAnswerQuestion_attributes in H.
  - now apply FillInTheBlankQuestion_attributes in H.
Qed.

Lemma response_objects_inr (rs : list Response) :
  response_objects (map inr rs) = Ok rs.
Proof.
  induction rs as [| r rs IH]; simpl; [reflexivity |]. now rewrite IH.
Qed.

Lemma initialize_objects (rs : list Response) (q : Question) :
  _initialize_responses (Some (map inr rs)) q = for_each add_response rs q.
Proof.
  destruct rs as [| r rs]; [reflexivity |].
  unfold _initialize_responses.
  change (map inr (r :: rs)) with (@inr dict Response r :: map inr rs).
  cbv beta iota.
  change (@inr dict Response r :: map inr rs) with (map (@inr dict Response) (r :: rs)).
  unfold bind, lift. now rewrite response_objects_inr.
Qed.

(** The loop stops at the first response of another type. *)
Lemma for_each_type_mismatch (rs : list Response) (q : Question) :
  (forall r, validate_response q r = Ok tt) ->
  Exists (fun r => Response_get_type r <> get_type q) rs ->
  exists q',
    for_each add_response rs q
    = (Err (ValueError msg_invalid_response_type), q').
Proof.
  intros Hv. revert q Hv.
  induction rs as [| r rs IH]; intros q Hv Hex; [inversion Hex |].
  simpl. unfold bind. rewrite add_response_unfold.
  destruct (String.eqb (Response_get_type r) (get_type q)) eqn:E; simpl.
  - rewrite Hv. apply String.eqb_eq in E.
    apply (IH (with_response q r)).
    + intros r'. exact (Hv r').
    + inversion Hex as [? ? H | ? ? H]; subst; [contradiction | exact H].
  - now exists q.
Qed.

(** A short answer question built with [Response] objects holds them all,
    in their order, when each has the type [short_answer]; one response of
    another type makes the constructor raise the [ValueError] "Invalid
    response type".  The same for a fill in the blank question. *)
Theorem free_text_constructors_attach (rs : list Response)
    (oid : option string) :
  (forall prompt answer,
      (Forall (fun r => Response_get_type r = "short_answer") rs ->
       ShortAnswerQuestion prompt answer (Some (map inr rs)) oid
       = Ok (mkQuestion "short_answer"
               (match oid with None => uuid4 | Some id => id end) rs
               (ShortAnswerFields prompt answer)))
      /\ (Exists (fun r => Response_get_type r <> "short_answer") rs ->
          ShortAnswerQuestion prompt answer (Some (map inr rs)) oid
          = Err (ValueError msg_invalid_response_type)))
  /\ (forall before_prompt after_prompt answer,
         (Forall (fun r => Response_get_type r = "fill_in_the_blank") rs ->
          FillInTheBlankQuestion before_prompt after_prompt answer
            (Some (map inr rs)) oid
          = Ok (mkQuestion "fill_in_the_blank"
                  (match oid with None => uuid4 | Some id => id end) rs
                  (FillInTheBlankFields before_prompt after_prompt answer)))
         /\ (Exists (fun r => Response_get_type r <> "fill_in_the_blank") rs ->
             FillInTheBlankQuestion before_prompt after_prompt answer
               (Some (map inr rs)) oid
             = Err (ValueError msg_invalid_response_type))).
Proof.
  split; intros; split; intros H;
    unfold ShortAnswerQuestion, FillInTheBlankQuestion, construct;
    rewrite initialize_objects.
  - rewrite for_each_add_response_accepted; [reflexivity |].
    eapply Forall_impl; [| exact H]. intros r Hr. split; [exact Hr | reflexivity].
  - destruct (for_each_type_mismatch rs
                (Question_init oid "short_answer"
                   (ShortAnswerFields prompt answer))) as [q' ->];
      [reflexivity | exact H | reflexivity].
  - rewrite for_each_add_response_accepted; [reflexivity |].
    eapply Forall_impl; [| exact H]. intros r Hr. split; [exact Hr | reflexivity].
  - destruct (for_each_type_mismatch rs
                (Question_init oid "fill_in_the_blank"
                   (FillInTheBlankFields before_prompt after_prompt answer)))
      as [q' ->]; [reflexivity | exact H | reflexivity].
Qed.

End Building.

(** * Further properties of the factory *)

Section Dispatch.

Context {imports : Imports}.

Lemma bind_result_Ok {A B : Type} (r : result A) (k : A -> result B) (b : B) :
  bind_result r k = inr b -> exists a, r = inr a /\ k a = inr b.
Proof. destruct r as [e | a]; [discriminate |]. intros H. now exists a. Qed.

(** A key other than the one taken out is still a key afterwards. *)
Lemma keys_remove_other {V : Type} (key key' : string)
    (d d' : list (string * V)) :
  key <> key' ->
  Dict.remove key d = Some d' ->
  In key' (Dict.keys d) -> In key' (Dict.keys d').
Proof.
  intros Hne. revert d'.
  induction d as [| [k v] d IH]; simpl; intros d' H Hin; [contradiction |].
  destruct (String.eqb k key) eqn:Ek.
  - injection H as <-. apply String.eqb_eq in Ek. subst k.
    destruct Hin as [Hin | Hin]; [contradiction | exact Hin].
  - destruct (Dict.remove key d) as [r |]; [| discriminate].
    injection H as <-. simpl.
    destruct Hin as [Hin | Hin]; [now left | right; now apply IH].
Qed.

(** What the factory does once both tags are there, for the results it can
    return. *)
Lemma create_from_dictionary_Ok (d : dict) (q : Question) :
  create_from_dictionary d = Ok q ->
  exists t d1 d2,
    Dict.lookup "type" d = Some t
    /\ Dict.contains "kind" d = true
    /\ Dict.remove "type" d = Some d1
    /\ Dict.remove "kind" d1 = Some d2.
Proof.
  unfold create_from_dictionary, dict_pop. intros H.
  destruct (Dict.remove "type" d) as [d1 |] eqn:E1; [| discriminate].
  simpl in H.
  destruct (Dict.remove "kind" d1) as [d2 |] eqn:E2; [| discriminate].
  assert (Hc : Dict.contains "type" d = true).
  { destruct (Dict.contains "type" d) eqn:C; [reflexivity |].
    apply DictFacts.remove_None in C. congruence. }
  apply DictFacts.contains_lookup in Hc. destruct Hc as [t Ht].
  assert (Hk1 : Dict.contains "kind" d1 = true).
  { destruct (Dict.contains "kind" d1) eqn:C; [reflexivity |].
    apply DictFacts.remove_None in C. congruence. }
  exists t, d1, d2. repeat split; try assumption.
  rewrite <- (DictFacts.contains_remove_other "type" "kind" d d1);
    [assumption | discriminate | assumption].
Qed.

(** A [type] that is there and is [None], as JSON's [null] decodes, is
    reported like a missing discriminator, once [kind] is there. *)
Theorem create_a_question_type_None (d : dict) :
  Dict.contains "kind" d = true ->
  Dict.lookup "type" d = Some VNone ->
  create_a_question (RepDict d) = Err (ValueError msg_must_have_a_type).
Proof.
  intros Hk Ht. simpl.
  destruct (create_from_dictionary_tags d VNone Ht Hk)
    as (d1 & d2 & _ & _ & ->).
  reflexivity.
Qed.

(** The question the factory returns is of the class its discriminator
    names: [type] in the mapping is the text that [get_type] returns, which
    is the tag of the class of the object; and the mapping had a [kind]. *)
Theorem create_a_question_class (d : dict) (q : Question) :
  create_a_question (RepDict d) = Ok q ->
  Dict.lookup "type" d = Some (VStr (get_type q))
  /\ get_type q = class_type (fields q)
  /\ Dict.contains "kind" d = true.
Proof.
  simpl. intros H.
  destruct (create_from_dictionary_Ok d q H) as (t & d1 & d2 & Ht & Hk & _).
  destruct (create_from_dictionary_tags d t Ht Hk) as (d1' & d2' & _ & _ & E).
  rewrite E in H. clear E.
  destruct (is_None t); [discriminate |].
  unfold get_type.
  destruct (value_eq_str t "multiple_choice") eqn:E1;
    [| destruct (value_eq_str t "matching") eqn:E2;
       [| destruct (value_eq_str t "short_answer") eqn:E3;
          [| destruct (value_eq_str t "fill_in_the_blank") eqn:E4;
             [| discriminate]]]];
    match goal with
    | E : value_eq_str t _ = true |- _ =>
        apply value_eq_str_true in E; subst t
    end;
    unfold call_MultipleChoiceQuestion, call_MatchingQuestion,
      call_ShortAnswerQuestion, call_FillInTheBlankQuestion in H;
    repeat (apply bind_result_Ok in H; destruct H as (? & _ & H)).
  - apply MultipleChoiceQuestion_attributes in H.
    destruct H as (-> & _ & ->). auto.
  - apply MatchingQuestion_attributes in H.
    destruct H as (-> & _ & ->). auto.
  - apply ShortAnswerQuestion_attributes in H.
    destruct H as (-> & _ & ->). auto.
  - apply FillInTheBlankQuestion_attributes in H.
    destruct H as (-> & _ & ->). auto.
Qed.

Lemma check_keywords_unexpected (parameters required : list string)
    (kwargs : dict) (key : string) :
  In key (Dict.keys kwargs) -> ~ In key parameters ->
  check_keywords parameters required kwargs
  = Err (TypeError msg_unexpected_keyword).
Proof.
  intros Hin Hnot. unfold check_keywords.
  destruct (forallb (fun k => str_in k parameters) (Dict.keys kwargs)) eqn:E;
    [| reflexivity].
  rewrite forallb_forall in E. specialize (E key Hin).
  apply str_in_In in E. contradiction.
Qed.

Lemma check_keywords_missing (parameters required : list string)
    (kwargs : dict) (p : string) :
  In p required -> Dict.contains p kwargs = false ->
  exists msg, check_keywords parameters required kwargs = Err (TypeError msg).
Proof.
  intros Hin Hno. unfold check_keywords.
  destruct (negb (forallb _ (Dict.keys kwargs))); [eauto |].
  destruct (forallb (fun p0 => Dict.contains p0 kwargs) required) eqn:E;
    simpl; [| eauto].
  rewrite forallb_forall in E. specialize (E p Hin). congruence.
Qed.

(** A mapping with a known discriminator and a key that is no parameter of
    any of the four constructors makes the factory raise [TypeError]: the
    remaining keys are passed as keyword arguments. *)
Theorem create_a_question_unexpected_key (d : dict) (t key : string) :
  Dict.contains "kind" d = true ->
  Dict.lookup "type" d = Some (VStr t) ->
  In t ["multiple_choice"; "matching"; "short_answer"; "fill_in_the_blank"] ->
  In key (Dict.keys d) ->
  ~ In key ["type"; "kind"; "prompt"; "choices"; "left_choices";
            "right_choices"; "before_prompt"; "after_prompt"; "answer";
            "responses"; "object_id"] ->
  create_a_question (RepDict d) = Err (TypeError msg_unexpected_keyword).
Proof.
  intros Hk Ht Htag Hin Hnot. simpl.
  destruct (create_from_dictionary_tags d (VStr t) Ht Hk)
    as (d1 & d2 & E1 & E2 & ->).
  assert (Hin2 : In key (Dict.keys d2)).
  { apply (keys_remove_other "kind" key d1 d2);
      [intros <-; apply Hnot; simpl; tauto | exact E2 |].
    apply (keys_remove_other "type" key d d1);
      [intros <-; apply Hnot; simpl; tauto | exact E1 | exact Hin]. }
  simpl in Htag.
  destruct Htag as [<- | [<- | [<- | [<- | []]]]]; simpl;
    unfold call_MultipleChoiceQuestion, call_MatchingQuestion,
      call_ShortAnswerQuestion, call_FillInTheBlankQuestion;
    rewrite (check_keywords_unexpected _ _ d2 key Hin2);
    try reflexivity;
    intros Hp; apply Hnot; simpl in *; tauto.
Qed.

(** Every constructor requires [answer]: a mapping with a known
    discriminator and no [answer] key makes the factory raise [TypeError]. *)
Theorem create_a_question_without_answer (d : dict) (t : string) :
  Dict.contains "kind" d = true ->
  Dict.lookup "type" d = Some (VStr t) ->
  In t ["multiple_choice"; "matching"; "short_answer"; "fill_in_the_blank"] ->
  Dict.contains "answer" d = false ->
  exists msg, create_a_question (RepDict d) = Err (TypeError msg).
Proof.
  intros Hk Ht Htag Hno. simpl.
  destruct (create_from_dictionary_tags d (VStr t) Ht Hk)
    as (d1 & d2 & E1 & E2 & ->).
  assert (Hno2 : Dict.contains "answer" d2 = false).
  { rewrite (DictFacts.contains_remove_other "kind" "answer" d1 d2);
      [| discriminate | exact E2].
    rewrite (DictFacts.contains_remove_other "type" "answer" d d1);
      [exact Hno | discriminate | exact E1]. }
  simpl in Htag.
  destruct Htag as [<- | [<- | [<- | [<- | []]]]]; simpl;
    unfold call_MultipleChoiceQuestion, call_MatchingQuestion,
      call_ShortAnswerQuestion, call_FillInTheBlankQuestion;
    match goal with
    | |- context [check_keywords ?ps ?rq d2] =>
        destruct (check_keywords_missing ps rq d2 "answer") as [msg ->];
          [simpl; tauto | exact Hno2 | now exists msg]
    end.
Qed.

End Dispatch.

(** * Further properties of serialization, equality and [fromkeys] *)

Section Serialization.

Context {imports : Imports}.

(** [json_data] loses nothing of a reachable question: two of them with the
    same serialization are the same question, when the response factory
    inverts the serialization of responses. *)
Theorem json_data_injective {laws : ResponseLaws} (q q' : Question) :
  constructed q -> constructed q' ->
  json_data q = json_data q' -> q = q'.
Proof.
  intros H H' E.
  apply constructed_well_formed, well_formed_round_trip in H, H'.
  rewrite E in H. rewrite H in H'. now injection H'.
Qed.

Lemma list_eq_length {A : Type} (eq : A -> A -> bool) (l l' : list A) :
  list_eq eq l l' = true -> List.length l = List.length l'.
Proof.
  revert l'. induction l as [| a l IH]; intros [| a' l']; simpl;
    try discriminate; [reflexivity |].
  intros H. apply andb_true_iff in H. destruct H as [_ H].
  f_equal. now apply IH.
Qed.

Lemma list_eq_strings (l l' : list string) :
  list_eq String.eqb l l' = true -> l = l'.
Proof.
  revert l'. induction l as [| a l IH]; intros [| a' l']; simpl;
    try discriminate; [reflexivity |].
  intros H. apply andb_true_iff in H. destruct H as [Ha H].
  apply String.eqb_eq in Ha. f_equal; [exact Ha | now apply IH].
Qed.

Lemma lookup_not_key {V : Type} (key : string) (d : list (string * V)) :
  ~ In key (Dict.keys d) -> Dict.lookup key d = None.
Proof.
  induction d as [| [k v] d IH]; simpl; intros H; [reflexivity |].
  destruct (String.eqb k key) eqn:E.
  - apply String.eqb_eq in E. exfalso. apply H. now left.
  - apply IH. intros Hin. apply H. now right.
Qed.

Lemma str_dict_eq_lookup (d d' : list (string * string)) :
  str_dict_eq d d' = true ->
  forall key, Dict.lookup key d = Dict.lookup key d'.
Proof.
  unfold str_dict_eq. rewrite forallb_forall. intros H key.
  destruct (in_dec string_dec key (Dict.keys d ++ Dict.keys d')) as [Hin | Hn].
  - specialize (H key Hin).
    destruct (Dict.lookup key d), (Dict.lookup key d'); simpl in H;
      try discriminate; [| reflexivity].
    apply String.eqb_eq in H. now subst.
  - rewrite in_app_iff in Hn.
    rewrite !lookup_not_key; [reflexivity | tauto | tauto].
Qed.

(** What [==] on two questions means when it holds: the same class, [type]
    and [object_id], as many responses, and the same attributes; the answer
    of a matching question is compared as a mapping, key by key, in any
    order. *)
Theorem Question_eq_structural (q q' : Question) :
  Question_eq q q' = true ->
  type q = type q'
  /\ object_id q = object_id q'
  /\ List.length (get_responses q) = List.length (get_responses q')
  /\ match fields q, fields q' with
     | MatchingFields p l r a, MatchingFields p' l' r' a' =>
         p = p' /\ l = l' /\ r = r'
         /\ forall key, Dict.lookup key a = Dict.lookup key a'
     | f, f' => f = f'
     end.
Proof.
  unfold Question_eq. intros H.
  repeat (apply andb_true_iff in H; destruct H as [H ?]).
  apply String.eqb_eq in H.
  match goal with Ho : String.eqb (object_id q) _ = true |- _ =>
    apply String.eqb_eq in Ho end.
  match goal with Hr : list_eq Response_eq _ _ = true |- _ =>
    apply list_eq_length in Hr end.
  repeat split; try assumption.
  destruct (fields q) as [p c a | p l r a | p a | b f a],
    (fields q') as [p' c' a' | p' l' r' a' | p' a' | b' f' a'];
    try discriminate;
    repeat match goal with
           | Hf : _ && _ = true |- _ =>
               apply andb_true_iff in Hf; destruct Hf
           | Hs : String.eqb _ _ = true |- _ =>
               apply String.eqb_eq in Hs; subst
           | Hl : list_eq String.eqb _ _ = true |- _ =>
               apply list_eq_strings in Hl; subst
           end;
    try reflexivity.
  repeat split. now apply str_dict_eq_lookup.
Qed.

(** A question with one more response is never [==] to the question
    without it, whatever [==] on responses says. *)
Theorem Question_eq_with_response (q : Question) (r : Response) :
  Question_eq (with_response q r) q = false
  /\ Question_eq q (with_response q r) = false.
Proof.
  assert (Hlen : forall l : list Response,
             list_eq Response_eq (l ++ [r]) l = false
             /\ list_eq Response_eq l (l ++ [r]) = false).
  { intros l.
    split;
      (destruct (list_eq Response_eq _ _) eqn:E; [| reflexivity]);
      apply list_eq_length in E; rewrite length_app in E; simpl in E; lia. }
  unfold Question_eq, with_response. simpl.
  destruct (Hlen (_responses q)) as [-> ->].
  rewrite !andb_false_r. split; reflexivity.
Qed.

End Serialization.

(** A list of choices is stored as it is exactly when it has no duplicates,
    and deduplication never makes it longer. *)
Theorem fromkeys_fixed_iff_NoDup (l : list string) :
  (fromkeys l = l <-> NoDup l)
  /\ List.length (fromkeys l) <= List.length l.
Proof.
  split.
  - split.
    + intros <-. apply fromkeys_NoDup.
    + intros H. rewrite fromkeys_dedup.
      now apply dedup_first_occurrence_fixed.
  - rewrite fromkeys_dedup.
    induction l as [| x l IH]; simpl; [lia |].
    pose proof (filter_length_le (fun y => negb (String.eqb x y))
                  (dedup_first_occurrence l)).
    lia.
Qed.

(** * The modelled Response against the laws, and concrete runs *)

Lemma SpecResponse_value_eqb_refl (v : value) : SpecResponse.value_eqb v v = true.
Proof.
  revert v. fix IH 1. intros [| s | l | d]; simpl.
  - reflexivity.
  - apply String.eqb_refl.
  - induction l as [| x l IHl]; [reflexivity |]. now rewrite IH, IHl.
  - induction d as [| [k x] d IHd]; [reflexivity |].
    now rewrite String.eqb_refl, IH, IHd.
Qed.

Lemma SpecResponse_laws (fresh : string) :
  @ResponseLaws (SpecResponse.imports fresh).
Proof.
  split.
  - intros [ty p]. reflexivity.
  - intros [ty p]. unfold Response_eq. simpl. unfold SpecResponse.eq.
    rewrite String.eqb_refl. simpl.
    exact (SpecResponse_value_eqb_refl (VDict p)).
Qed.

(** ** Runs of the theorems on the examples *)

#[local] Existing Instance Example.imports.

(** A mapping with [kind] and the fields of a question, and no [type]. *)
Lemma create_a_question_without_type_run :
  Dict.contains "type" Example.without_type = false
  /\ create_a_question (RepDict Example.without_type) = Err (KeyError "type").
Proof.
  split; [reflexivity |].
  apply (create_a_question_without_type Example.without_type). reflexivity.
Defined.

Lemma create_a_question_without_kind_run :
  Dict.contains "type" Example.without_kind = true
  /\ Dict.contains "kind" Example.without_kind = false
  /\ create_a_question (RepDict Example.without_kind) = Err (KeyError "kind").
Proof.
  split; [reflexivity | split; [reflexivity |]].
  apply (create_a_question_without_kind Example.without_kind); reflexivity.
Defined.

(** C5 as it is stated fails on [{"type": "unknown_kind"}]: the discriminator
    is present and names no known class, and the factory raises
    [KeyError('kind')], not the error for an unsupported type.  A [type] that
    is [None] gets the error for a missing discriminator. *)
Lemma unsupported_type_without_kind :
  Dict.lookup "type" Example.unknown_kind_only = Some (VStr "unknown_kind")
  /\ ~ In (VStr "unknown_kind")
         [VStr "multiple_choice"; VStr "matching"; VStr "short_answer";
          VStr "fill_in_the_blank"]
  /\ create_a_question (RepDict Example.unknown_kind_only)
     = Err (KeyError "kind")
  /\ create_a_question (RepDict Example.unknown_kind_only)
     <> Err (ValueError msg_not_supported)
  /\ create_a_question (RepDict [("type", VNone); ("kind", VStr "question")])
     = Err (ValueError msg_must_have_a_type).
Proof.
  split; [reflexivity |].
  split; [simpl; intros [H | [H | [H | [H | []]]]]; discriminate |].
  split; [reflexivity |]. split; [discriminate | reflexivity].
Qed.

Lemma create_a_question_unsupported_type_run :
  Dict.contains "kind" Example.unknown_kind = true
  /\ create_a_question (RepDict Example.unknown_kind)
     = Err (ValueError msg_not_supported).
Proof.
  split; [reflexivity |].
  apply (create_a_question_unsupported_type Example.unknown_kind
           (VStr "unknown_kind")).
  - reflexivity.
  - reflexivity.
  - discriminate.
  - simpl. intros [H | [H | [H | [H | []]]]]; discriminate.
Defined.

Lemma add_response_type_mismatch_run :
  Response_get_type Example.choice_4 <> get_type Example.capitals
  /\ add_response Example.choice_4 Example.capitals
     = (Err (ValueError msg_invalid_response_type), Example.capitals).
Proof.
  assert (H : Response_get_type Example.choice_4 <> get_type Example.capitals)
    by discriminate.
  split; [exact H |].
  exact (proj1 (add_response_type_mismatch Example.capitals Example.choice_4 H)).
Defined.

Lemma two_plus_two_constructed : constructed Example.two_plus_two.
Proof.
  apply (constructed_multiple_choice "2+2?" ["3"; "4"; "5"] "4" None None).
  reflexivity.
Defined.

(** The end-to-end run of the specification: [{"choice": "4"}] is attached,
    then [{"choice": "9"}] is refused and the one response stays. *)
Lemma multiple_choice_add_response_run :
  add_response Example.choice_4 Example.two_plus_two
  = (Ok tt, with_response Example.two_plus_two Example.choice_4)
  /\ List.length (get_responses
                    (with_response Example.two_plus_two Example.choice_4)) = 1
  /\ add_response Example.choice_9
       (with_response Example.two_plus_two Example.choice_4)
     = (Err (ValueError msg_choice_not_reflected),
        with_response Example.two_plus_two Example.choice_4).
Proof.
  pose proof (multiple_choice_add_response Example.two_plus_two
                Example.choice_4 "2+2?" ["3"; "4"; "5"] "4"
                two_plus_two_constructed eq_refl eq_refl) as [Hyes _].
  destruct Hyes as (Hadd & _ & Hlen).
  { exists (VStr "4"). split; reflexivity. }
  split; [exact Hadd |]. split; [exact Hlen |].
  pose proof (multiple_choice_add_response
                (with_response Example.two_plus_two Example.choice_4)
                Example.choice_9 "2+2?" ["3"; "4"; "5"] "4"
                (constructed_add_response _ _ _ two_plus_two_constructed Hadd)
                eq_refl eq_refl) as [_ Hno].
  destruct Hno as [[H | H] _].
  - intros (c & Hc & Hin). injection Hc as <-. discriminate.
  - discriminate H.
  - exact H.
Defined.

(** C7 as it is stated fails on a response whose [answer_mapping] is a text:
    [validate_response] neither returns nor raises a [ValueError]. *)
Lemma matching_validate_response_text :
  fields Example.capitals
  = MatchingFields "Match the capitals" ["France"; "Peru"]
      ["Lima"; "Paris"; "France"] [("anything", "France")]
  /\ Dict.lookup "answer_mapping" (Response_json_data Example.capitals_as_text)
     = Some (VStr "France=Paris")
  /\ validate_response Example.capitals Example.capitals_as_text
     = Err (AttributeError "keys")
  /\ validate_response Example.capitals Example.capitals_as_text <> Ok tt
  /\ forall msg,
       validate_response Example.capitals Example.capitals_as_text
       <> Err (ValueError msg).
Proof. repeat split; discriminate. Qed.

Lemma matching_validate_response_run :
  validate_response Example.capitals Example.capitals_matched = Ok tt
  /\ (validate_response Example.capitals Example.capitals_swapped
      = Err (ValueError msg_left_must_match)
      \/ validate_response Example.capitals Example.capitals_swapped
         = Err (ValueError msg_right_not_contained))
  /\ validate_response Example.capitals Example.capitals_as_text
     = Err (AttributeError "keys").
Proof.
  split; [| split].
  - apply (matching_validate_response Example.capitals
             Example.capitals_matched _ _ _ _ eq_refl).
    split; [reflexivity |]. simpl.
    apply Forall_cons; [| apply Forall_cons; [now left | apply Forall_nil]].
    right. exists "Paris". split; [reflexivity | simpl; tauto].
  - apply (matching_validate_response Example.capitals
             Example.capitals_swapped _ _ _ _ eq_refl).
    intros [Hkeys _]. discriminate Hkeys.
  - exact (matching_validate_response Example.capitals
             Example.capitals_as_text _ _ _ _ eq_refl).
Defined.

Lemma multiple_choice_answer_not_in_choices_run :
  ~ In "c" ["a"; "b"]
  /\ MultipleChoiceQuestion "p" ["a"; "b"] "c" None None
     = Err (ValueError msg_answer_in_choices).
Proof.
  assert (H : ~ In "c" ["a"; "b"])
    by (simpl; intros [H | [H | []]]; discriminate).
  split; [exact H |].
  exact (proj1 (multiple_choice_answer_not_in_choices "p" ["a"; "b"] "c" None
                  H)).
Defined.

(** A value that is missing from [right_choices] is refused; a key that is in
    neither list is not looked at. *)
Lemma matching_answer_values_checked_run :
  MatchingQuestion "p" ["a"; "z"] ["1"] [("a", "z")] None None
  = Err (ValueError msg_right_choices)
  /\ exists q,
       MatchingQuestion "p" ["a"; "b"] ["a"; "x"] [("zzz", "a")] None None
       = Ok q.
Proof.
  split.
  - destruct (proj1 (proj2 (matching_answer_values_checked "p" ["a"; "z"]
                              ["1"] [("a", "z")] None None)))
      as [H | H].
    + apply Exists_cons_hd. simpl. intros [H | []]. discriminate.
    + discriminate H.
    + exact H.
  - destruct (proj2 (proj2 (matching_answer_values_checked "p" ["a"; "b"]
                              ["a"; "x"] [("zzz", "a")] None None)))
      as (q & H & _).
    + apply Forall_cons; [simpl; tauto | apply Forall_nil].
    + now exists q.
Defined.

Lemma constructors_deduplicate_choices_run :
  exists q,
    MultipleChoiceQuestion "p" ["a"; "b"; "a"; "c"] "a" None None = Ok q
    /\ fields q = MultipleChoiceFields "p" ["a"; "b"; "c"] "a".
Proof.
  eexists. split; [reflexivity |].
  exact (proj1 constructors_deduplicate_choices "p" ["a"; "b"; "a"; "c"] "a"
           None None _ eq_refl).
Defined.

Lemma two_plus_two_answered_constructed :
  constructed (with_response Example.two_plus_two Example.choice_4).
Proof.
  apply (constructed_add_response Example.two_plus_two Example.choice_4).
  - exact two_plus_two_constructed.
  - reflexivity.
Defined.

Lemma json_data_round_trip_run :
  constructed (with_response Example.two_plus_two Example.choice_4)
  /\ Dict.lookup "type"
       (json_data (with_response Example.two_plus_two Example.choice_4))
     = Some (VStr "multiple_choice")
  /\ exists q',
       create_a_question
         (RepDict
            (json_data (with_response Example.two_plus_two Example.choice_4)))
       = Ok q'
       /\ Question_eq q'
            (with_response Example.two_plus_two Example.choice_4) = true.
Proof.
  split; [exact two_plus_two_answered_constructed |].
  destruct (json_data_round_trip (laws := SpecResponse_laws _)
              (with_response Example.two_plus_two Example.choice_4)
              two_plus_two_answered_constructed)
    as (Htype & _ & q' & Hcreate & Heq & _).
  split; [exact Htype |].
  exists q'. split; assumption.
Defined.

(** ** Runs of the further properties *)

Lemma validate_response_errors_run :
  validate_response Example.capitals Example.capitals_as_text
  = Err (AttributeError "keys")
  /\ (AttributeError "keys" = ValueError msg_no_answer_mapping
      \/ AttributeError "keys" = ValueError msg_left_must_match
      \/ AttributeError "keys" = ValueError msg_right_not_contained
      \/ AttributeError "keys" = AttributeError "keys").
Proof.
  split; [reflexivity |].
  exact (validate_response_errors Example.capitals Example.capitals_as_text
           (AttributeError "keys") eq_refl).
Defined.

Lemma free_text_add_response_run :
  Response_get_type Sample.essay_reply = get_type Sample.essay
  /\ add_response Sample.essay_reply Sample.essay
     = (Ok tt, with_response Sample.essay Sample.essay_reply).
Proof.
  split; [reflexivity |].
  apply (free_text_add_response Sample.essay Sample.essay_reply);
    [| reflexivity].
  left. now exists "Why is the sky blue?", "Rayleigh scattering".
Defined.

Lemma matching_add_response_run :
  add_response Example.capitals_matched Example.capitals
  = (Ok tt, with_response Example.capitals Example.capitals_matched)
  /\ (add_response Example.capitals_swapped Example.capitals
      = (Err (ValueError msg_left_must_match), Example.capitals)
      \/ add_response Example.capitals_swapped Example.capitals
         = (Err (ValueError msg_right_not_contained), Example.capitals)).
Proof.
  split.
  - apply (matching_add_response Example.capitals Example.capitals_matched
             _ _ _ _ _ eq_refl eq_refl eq_refl).
    split; [reflexivity |]. simpl.
    apply Forall_cons; [| apply Forall_cons; [now left | apply Forall_nil]].
    right. exists "Paris". split; [reflexivity | simpl; tauto].
  - apply (matching_add_response Example.capitals Example.capitals_swapped
             _ _ _ _ _ eq_refl eq_refl eq_refl).
    intros [Hkeys _]. discriminate Hkeys.
Defined.

Lemma constructed_attributes_run :
  constructed Example.two_plus_two
  /\ NoDup ["3"; "4"; "5"] /\ In "4" ["3"; "4"; "5"].
Proof.
  split; [exact two_plus_two_constructed |].
  exact (constructed_attributes Example.two_plus_two two_plus_two_constructed).
Defined.

Lemma constructed_responses_run :
  constructed (with_response Example.two_plus_two Example.choice_4)
  /\ Forall (fun r => exists s,
                Dict.lookup "choice" (Response_json_data r) = Some (VStr s)
                /\ In s ["3"; "4"; "5"])
       [Example.choice_4].
Proof.
  split; [exact two_plus_two_answered_constructed |].
  exact (proj2 (constructed_responses
                  (with_response Example.two_plus_two Example.choice_4)
                  two_plus_two_answered_constructed)
           "2+2?" ["3"; "4"; "5"] "4" eq_refl).
Defined.

Lemma constructors_object_id_run :
  ShortAnswerQuestion "Why?" "Because" None (Some "q-9")
  = Ok (mkQuestion "short_answer" "q-9" [] (ShortAnswerFields "Why?" "Because"))
  /\ object_id
       (mkQuestion "short_answer" "q-9" [] (ShortAnswerFields "Why?" "Because"))
     = "q-9".
Proof.
  split; [reflexivity |].
  apply (constructors_object_id (Some "q-9") None).
  right. right. left. now exists "Why?", "Because".
Defined.

Lemma free_text_constructors_attach_run :
  ShortAnswerQuestion "Why is the sky blue?" "Rayleigh scattering"
    (Some [inr Sample.essay_reply]) (Some "q-9")
  = Ok (with_response Sample.essay Sample.essay_reply)
  /\ ShortAnswerQuestion "Why is the sky blue?" "Rayleigh scattering"
       (Some [inr Sample.essay_reply; inr Example.choice_4]) (Some "q-9")
     = Err (ValueError msg_invalid_response_type).
Proof.
  split.
  - apply (proj1 (proj1 (free_text_constructors_attach [Sample.essay_reply]
                           (Some "q-9")) _ _)).
    apply Forall_cons; [reflexivity | apply Forall_nil].
  - apply (proj2 (proj1 (free_text_constructors_attach
                           [Sample.essay_reply; Example.choice_4]
                           (Some "q-9")) _ _)).
    apply Exists_cons_tl, Exists_cons_hd. discriminate.
Defined.

Lemma create_a_question_type_None_run :
  Dict.lookup "type" Sample.null_type = Some VNone
  /\ create_a_question (RepDict Sample.null_type)
     = Err (ValueError msg_must_have_a_type).
Proof.
  split; [reflexivity |].
  apply (create_a_question_type_None Sample.null_type); reflexivity.
Defined.

Lemma create_a_question_class_run :
  create_a_question (RepDict (json_data Example.two_plus_two))
  = Ok Example.two_plus_two
  /\ Dict.lookup "type" (json_data Example.two_plus_two)
     = Some (VStr "multiple_choice").
Proof.
  split; [reflexivity |].
  exact (proj1 (create_a_question_class (json_data Example.two_plus_two)
                  Example.two_plus_two eq_refl)).
Defined.

Lemma create_a_question_unexpected_key_run :
  In "points" (Dict.keys Sample.with_stray_key)
  /\ create_a_question (RepDict Sample.with_stray_key)
     = Err (TypeError msg_unexpected_keyword).
Proof.
  split; [simpl; tauto |].
  apply (create_a_question_unexpected_key Sample.with_stray_key
           "short_answer" "points").
  - reflexivity.
  - reflexivity.
  - simpl. tauto.
  - simpl. tauto.
  - simpl. intros H.
    repeat (destruct H as [H | H]; [discriminate |]). exact H.
Defined.

Lemma create_a_question_without_answer_run :
  Dict.contains "answer" Sample.without_answer = false
  /\ exists msg,
       create_a_question (RepDict Sample.without_answer)
       = Err (TypeError msg).
Proof.
  split; [reflexivity |].
  apply (create_a_question_without_answer Sample.without_answer
           "short_answer").
  - reflexivity.
  - reflexivity.
  - simpl. tauto.
  - reflexivity.
Defined.

Lemma json_data_injective_run :
  json_data Example.two_plus_two = json_data Example.two_plus_two
  /\ Example.two_plus_two = Example.two_plus_two.
Proof.
  split; [reflexivity |].
  exact (json_data_injective (laws := SpecResponse_laws _)
           Example.two_plus_two Example.two_plus_two
           two_plus_two_constructed two_plus_two_constructed eq_refl).
Defined.

Lemma Question_eq_structural_run :
  Question_eq (with_response Example.two_plus_two Example.choice_4)
    (with_response Example.two_plus_two Example.choice_4) = true
  /\ List.length
       (get_responses (with_response Example.two_plus_two Example.choice_4))
     = 1.
Proof.
  split; [reflexivity |].
  exact (proj1 (proj2 (proj2
           (Question_eq_structural
              (with_response Example.two_plus_two Example.choice_4)
              (with_response Example.two_plus_two Example.choice_4)
              eq_refl)))).
Defined.
